(** * Achievo certificate contract: a shallow embedding and its properties

    The contract of [src/achievo/src/contract.ts] is a NEAR smart contract
    written against near-sdk-js.  Its methods are embedded here as
    computations of a small state-and-exception monad [M]; the host (caller
    identity, attached deposit, clock, logs, promise batches, rollback of a
    failed call) is modelled by [near.Context], [near.Effect] and [invoke].

    Conventions of the embedding:
    - a [LookupMap<V>] is a finite map [gmap string V]; the five maps have
      pairwise prefix-free storage prefixes, so they never share a key;
    - the two counters are JavaScript numbers that start at 0 and change
      by [++] only; they are modelled by [nat] (a number is an exact
      integer up to 2^53, and what [++] does beyond is not modelled), and
      the template literal [`cert_${n}`] by decimal printing;
    - a TypeScript interface is a record, an optional field an [option];
    - [throw new Error(msg)] is [throw (Error msg)];
    - a JavaScript string is represented by its UTF-8 encoding;
    - the decorator [@call] of the SDK is embedded with the methods it
      wraps: a call that carries a deposit to a method not declared
      payable is rejected before the body runs; [@view] adds nothing. *)

From Stdlib Require Import ZArith Ascii String.
From stdpp Require Import gmap strings list fin_maps pretty.

Local Open Scope string_scope.
Local Open Scope list_scope.

(** ** Data model (the exported interfaces) *)

Module Individual.
Record t := mk {
  id : string;
  name : string;
  dob : string;
  email : string;
  registered_at : string
}.
End Individual.

Module Organization.
Record t := mk {
  id : string;
  name : string;
  contact_info : string;
  verified : bool;
  registered_at : string
}.
End Organization.

Module CertificateMetadata.
Record t := mk {
  learner_id : string;
  course_id : string;
  course_name : string;
  completion_date : string;
  issuer_org_id : string;
  skills : list string;
  grade : option string
}.
End CertificateMetadata.

Module Certificate.
Record t := mk {
  id : string;
  metadata : CertificateMetadata.t;
  status : string;
  issued_at : string;
  updated_at : string
}.
End Certificate.

Module Reward.
Record t := mk {
  id : string;
  learner_id : string;
  milestone : string;
  amount : string;
  granted_at : string
}.
End Reward.

Module UpdateLog.
Record t := mk {
  timestamp : string;
  action : string;
  reason : string;
  by_account : string
}.
End UpdateLog.

(** The contract object: five storage collections and two counters. *)
Record AchievoContract := mkContract {
  individuals : gmap string Individual.t;
  organizations : gmap string Organization.t;
  certificates : gmap string Certificate.t;
  rewards : gmap string Reward.t;
  certificate_history : gmap string (list UpdateLog.t);
  certificate_counter : nat;
  reward_counter : nat
}.

(** [constructor()]: empty collections, counters at their initialisers. *)
Definition constructor : AchievoContract :=
  {| individuals := ∅; organizations := ∅; certificates := ∅; rewards := ∅;
     certificate_history := ∅; certificate_counter := 0; reward_counter := 0 |}.

(** ** The host *)

Module near.
(** What the host supplies to one call: the predecessor account, the
    attached deposit, and the clock ([clock k] is what the k-th
    [new Date().toISOString()] of the call evaluates to). *)
Record Context := mkContext {
  predecessor : string;
  deposit : N;
  clock : nat → string
}.

(** What one call hands to the host besides its writes to storage. *)
Inductive Effect :=
| Log (msg : string)
| PromiseBatchCreate (account_id : string)
| PromiseBatchActionTransfer (promise : nat) (amount : Z)
| PromiseReturn (promise : nat).
End near.

(** Values a method body can throw. *)
Inductive JsError :=
| Error (message : string)
| SyntaxError (message : string).

Inductive Completion (A : Type) :=
| Normal (value : A)
| Throw (e : JsError).
Arguments Normal {A} value.
Arguments Throw {A} e.

(** The running call: the contract object, the effects emitted so far, the
    number of clock readings taken so far. *)
Record Machine := mkMachine {
  this : AchievoContract;
  emitted : list near.Effect;
  ticks : nat
}.

Definition start (c : AchievoContract) : Machine :=
  {| this := c; emitted := []; ticks := 0 |}.

(** ** The monad of method bodies *)

Definition M (A : Type) : Type := near.Context → Machine → Completion A * Machine.

Global Instance M_ret : MRet M := λ A a _ m, (Normal a, m).
Global Instance M_bind : MBind M := λ A B f x ctx m,
  match x ctx m with
  | (Normal a, m') => f a ctx m'
  | (Throw e, m') => (Throw e, m')
  end.

Definition throw {A} (e : JsError) : M A := λ _ m, (Throw e, m).

(** [if (b) { throw e; }] *)
Definition throw_if (b : bool) (e : JsError) : M unit :=
  if b then throw e else mret ().

Definition get_this : M AchievoContract := λ _ m, (Normal (this m), m).

Definition set_this (c : AchievoContract) : M unit := λ _ m,
  (Normal (), {| this := c; emitted := emitted m; ticks := ticks m |}).

Definition emit (e : near.Effect) : M unit := λ _ m,
  (Normal (), {| this := this m; emitted := emitted m ++ [e]; ticks := ticks m |}).

Definition predecessorAccountId : M string := λ ctx m,
  (Normal (near.predecessor ctx), m).

Definition attachedDeposit : M Z := λ ctx m,
  (Normal (Z.of_N (near.deposit ctx)), m).

(** [new Date().toISOString()] *)
Definition Date_toISOString : M string := λ ctx m,
  (Normal (near.clock ctx (ticks m)),
   {| this := this m; emitted := emitted m; ticks := S (ticks m) |}).

Definition log (msg : string) : M unit := emit (near.Log msg).

(** The host numbers the promise batches of a call from 0. *)
Definition is_batch (e : near.Effect) : bool :=
  match e with near.PromiseBatchCreate _ => true | _ => false end.

Definition promiseBatchCreate (account_id : string) : M nat := λ ctx m,
  (Normal (length (List.filter is_batch (emitted m))),
   {| this := this m; emitted := emitted m ++ [near.PromiseBatchCreate account_id];
      ticks := ticks m |}).

(** The host takes the amount as an unsigned 128-bit integer; the action
    is recorded with the amount as given. *)
Definition promiseBatchActionTransfer (promise : nat) (amount : Z) : M unit :=
  emit (near.PromiseBatchActionTransfer promise amount).

Definition promiseReturn (promise : nat) : M unit := emit (near.PromiseReturn promise).

(** ** Storage collections: [this.<map>.get(key)] and [this.<map>.set(key, value)] *)

Definition individuals_get (key : string) : M (option Individual.t) :=
  c ← get_this; mret (individuals c !! key).

Definition individuals_set (key : string) (value : Individual.t) : M unit :=
  c ← get_this;
  set_this {| individuals := <[key := value]> (individuals c);
              organizations := organizations c; certificates := certificates c;
              rewards := rewards c; certificate_history := certificate_history c;
              certificate_counter := certificate_counter c;
              reward_counter := reward_counter c |}.

Definition organizations_get (key : string) : M (option Organization.t) :=
  c ← get_this; mret (organizations c !! key).

Definition organizations_set (key : string) (value : Organization.t) : M unit :=
  c ← get_this;
  set_this {| individuals := individuals c;
              organizations := <[key := value]> (organizations c);
              certificates := certificates c;
              rewards := rewards c; certificate_history := certificate_history c;
              certificate_counter := certificate_counter c;
              reward_counter := reward_counter c |}.

Definition certificates_get (key : string) : M (option Certificate.t) :=
  c ← get_this; mret (certificates c !! key).

Definition certificates_set (key : string) (value : Certificate.t) : M unit :=
  c ← get_this;
  set_this {| individuals := individuals c; organizations := organizations c;
              certificates := <[key := value]> (certificates c);
              rewards := rewards c; certificate_history := certificate_history c;
              certificate_counter := certificate_counter c;
              reward_counter := reward_counter c |}.

Definition rewards_get (key : string) : M (option Reward.t) :=
  c ← get_this; mret (rewards c !! key).

Definition rewards_set (key : string) (value : Reward.t) : M unit :=
  c ← get_this;
  set_this {| individuals := individuals c; organizations := organizations c;
              certificates := certificates c;
              rewards := <[key := value]> (rewards c);
              certificate_history := certificate_history c;
              certificate_counter := certificate_counter c;
              reward_counter := reward_counter c |}.

Definition certificate_history_get (key : string) : M (option (list UpdateLog.t)) :=
  c ← get_this; mret (certificate_history c !! key).

Definition certificate_history_set (key : string) (value : list UpdateLog.t) : M unit :=
  c ← get_this;
  set_this {| individuals := individuals c; organizations := organizations c;
              certificates := certificates c; rewards := rewards c;
              certificate_history := <[key := value]> (certificate_history c);
              certificate_counter := certificate_counter c;
              reward_counter := reward_counter c |}.

(** [this.certificate_counter++] followed by a read of the field. *)
Definition certificate_counter_incr : M nat :=
  c ← get_this;
  set_this {| individuals := individuals c; organizations := organizations c;
              certificates := certificates c; rewards := rewards c;
              certificate_history := certificate_history c;
              certificate_counter := S (certificate_counter c);
              reward_counter := reward_counter c |};;
  mret (S (certificate_counter c)).

(** [this.reward_counter++] followed by a read of the field. *)
Definition reward_counter_incr : M nat :=
  c ← get_this;
  set_this {| individuals := individuals c; organizations := organizations c;
              certificates := certificates c; rewards := rewards c;
              certificate_history := certificate_history c;
              certificate_counter := certificate_counter c;
              reward_counter := S (reward_counter c) |};;
  mret (S (reward_counter c)).

(** JavaScript truthiness of what a [get] returns: an object is truthy,
    [null] is falsy. *)
Definition truthy {A} (o : option A) : bool :=
  match o with Some _ => true | None => false end.

(** [history || []] *)
Definition or_empty {A} (o : option (list A)) : list A :=
  match o with Some l => l | None => [] end.

(** The identifiers built by the template literals. *)
Definition cert_id (n : nat) : string := "cert_" +:+ pretty n.
Definition reward_id (n : nat) : string := "reward_" +:+ pretty n.

(** ** [BigInt(string)]

    The language's StringToBigInt.  A JavaScript string is represented by
    its UTF-8 encoding.  White space and line terminators (StrWhiteSpaceChar)
    are trimmed at both ends, the empty string is 0, a decimal literal may
    carry a sign, a literal with a radix prefix may not, anything else is a
    SyntaxError. *)

Definition utf8 (bytes : list nat) : string :=
  string_of_list_ascii (ascii_of_nat <$> bytes).

(** StrWhiteSpaceChar: TAB, LF, VT, FF, CR, SP, NBSP (U+00A0), U+1680,
    U+2000 to U+200A, LS (U+2028), PS (U+2029), U+202F, U+205F, U+3000 and
    ZWNBSP (U+FEFF). *)
Definition StrWhiteSpaceChar : list string :=
  utf8 <$> [ [9]; [10]; [11]; [12]; [13]; [32];
             [194; 160];
             [225; 154; 128];
             [226; 128; 128]; [226; 128; 129]; [226; 128; 130]; [226; 128; 131];
             [226; 128; 132]; [226; 128; 133]; [226; 128; 134]; [226; 128; 135];
             [226; 128; 136]; [226; 128; 137]; [226; 128; 138];
             [226; 128; 168]; [226; 128; 169];
             [226; 128; 175];
             [226; 129; 159];
             [227; 128; 128];
             [239; 187; 191] ].

(** What is left of [s] after the prefix [p], if [s] starts with [p]. *)
Fixpoint strip_prefix (p s : string) : option string :=
  match p, s with
  | EmptyString, _ => Some s
  | String a p', String b s' => if (a =? b)%char then strip_prefix p' s' else None
  | String _ _, EmptyString => None
  end.

(** What is left of [s] after the first of the [chars] it starts with. *)
Fixpoint strip_one (chars : list string) (s : string) : option string :=
  match chars with
  | [] => None
  | p :: chars' =>
      match strip_prefix p s with
      | Some rest => Some rest
      | None => strip_one chars' s
      end
  end.

(** Strips leading [chars] from [s]; [fuel] bounds the number of them. *)
Fixpoint trim_start_with (chars : list string) (fuel : nat) (s : string) : string :=
  match fuel with
  | 0 => s
  | S fuel' =>
      match strip_one chars s with
      | Some rest => trim_start_with chars fuel' rest
      | None => s
      end
  end.

Fixpoint string_rev_onto (s acc : string) : string :=
  match s with
  | String a s' => string_rev_onto s' (String a acc)
  | EmptyString => acc
  end.

Definition string_rev (s : string) : string := string_rev_onto s "".

Definition trim_start (s : string) : string :=
  trim_start_with StrWhiteSpaceChar (String.length s) s.

(** The same from the end: the string and each character are reversed. *)
Definition trim_end (s : string) : string :=
  string_rev
    (trim_start_with (string_rev <$> StrWhiteSpaceChar) (String.length s)
       (string_rev s)).

Definition trim (s : string) : string := trim_end (trim_start s).

Definition digit_value (radix : Z) (a : ascii) : option Z :=
  let n := Z.of_nat (nat_of_ascii a) in
  let v := if (48 <=? n)%Z && (n <=? 57)%Z then Some (n - 48)%Z
           else if (97 <=? n)%Z && (n <=? 122)%Z then Some (n - 87)%Z
           else if (65 <=? n)%Z && (n <=? 90)%Z then Some (n - 55)%Z
           else None in
  match v with
  | Some d => if (d <? radix)%Z then Some d else None
  | None => None
  end.

Fixpoint digits_value (radix : Z) (s : string) (acc : Z) : option Z :=
  match s with
  | EmptyString => Some acc
  | String a s' =>
      match digit_value radix a with
      | Some d => digits_value radix s' (acc * radix + d)%Z
      | None => None
      end
  end.

(** One digit at least. *)
Definition digits1 (radix : Z) (s : string) : option Z :=
  match s with
  | EmptyString => None
  | _ => digits_value radix s 0%Z
  end.

Definition StringToBigInt (s : string) : option Z :=
  match trim s with
  | EmptyString => Some 0%Z
  | String "+" s' => digits1 10 s'
  | String "-" s' => Z.opp <$> digits1 10 s'
  | String "0" (String c s') =>
      if (c =? "x")%char || (c =? "X")%char then digits1 16 s'
      else if (c =? "o")%char || (c =? "O")%char then digits1 8 s'
      else if (c =? "b")%char || (c =? "B")%char then digits1 2 s'
      else digits1 10 (String "0" (String c s'))
  | t => digits1 10 t
  end.

Definition BigInt (s : string) : M Z :=
  match StringToBigInt s with
  | Some v => mret v
  | None => throw (SyntaxError ("Cannot convert " +:+ s +:+ " to a BigInt"))
  end.

(** ** The decorators of the SDK

    [@call({ privateFunction, payableFunction })] wraps a method in two
    checks that run before its body.  Every use in the contract leaves
    [privateFunction] at its default [false], so the first check (caller =
    contract account) is never made; the second one rejects a call that
    carries a deposit unless the method is declared payable.  [@view({})]
    adds nothing. *)
Definition call {A} (payableFunction : bool) (method : M A) : M A :=
  deposit ← attachedDeposit;
  throw_if (negb payableFunction && (0 <? deposit)%Z)
    (Error "Function is not payable");;
  method.

(** ** The methods of [AchievoContract] *)

Definition register_individual (name dob email : string) : M unit :=
  call false (
    caller ← predecessorAccountId;
    existing ← individuals_get caller;
    throw_if (truthy existing) (Error "Individual already registered");;
    registered_at ← Date_toISOString;
    let individual :=
      {| Individual.id := caller; Individual.name := name; Individual.dob := dob;
         Individual.email := email; Individual.registered_at := registered_at |} in
    individuals_set caller individual;;
    log ("Individual registered: " +:+ caller +:+ " - " +:+ name)).

Definition register_organization (name contact_info : string) : M unit :=
  call false (
    caller ← predecessorAccountId;
    existing ← organizations_get caller;
    throw_if (truthy existing) (Error "Organization already registered");;
    registered_at ← Date_toISOString;
    let organization :=
      {| Organization.id := caller; Organization.name := name;
         Organization.contact_info := contact_info;
         Organization.verified := false;
         Organization.registered_at := registered_at |} in
    organizations_set caller organization;;
    log ("Organization registered: " +:+ caller +:+ " - " +:+ name
         +:+ " (pending verification)")).

Definition verify_organization (organization_id : string) : M unit :=
  call false (
    found ← organizations_get organization_id;
    match found with
    | None => throw (Error "Organization not found")
    | Some organization =>
        let organization :=
          {| Organization.id := Organization.id organization;
             Organization.name := Organization.name organization;
             Organization.contact_info := Organization.contact_info organization;
             Organization.verified := true;
             Organization.registered_at := Organization.registered_at organization |} in
        organizations_set organization_id organization;;
        log ("Organization verified: " +:+ organization_id)
    end).

(** [!organization || !organization.verified] *)
Definition not_verified (organization : option Organization.t) : bool :=
  match organization with
  | None => true
  | Some o => negb (Organization.verified o)
  end.

Definition issue_certificate (learner_id course_id : string)
    (metadata : CertificateMetadata.t) : M string :=
  call false (
    caller ← predecessorAccountId;
    organization ← organizations_get caller;
    throw_if (not_verified organization)
      (Error "Only verified organizations can issue certificates");;
    learner ← individuals_get learner_id;
    throw_if (negb (truthy learner)) (Error "Learner not found");;
    counter ← certificate_counter_incr;
    let certificate_id := cert_id counter in
    issued_at ← Date_toISOString;
    updated_at ← Date_toISOString;
    let certificate :=
      {| Certificate.id := certificate_id;
         Certificate.metadata :=
           {| CertificateMetadata.learner_id := learner_id;
              CertificateMetadata.course_id := course_id;
              CertificateMetadata.course_name := CertificateMetadata.course_name metadata;
              CertificateMetadata.completion_date :=
                CertificateMetadata.completion_date metadata;
              CertificateMetadata.issuer_org_id := caller;
              CertificateMetadata.skills := CertificateMetadata.skills metadata;
              CertificateMetadata.grade := CertificateMetadata.grade metadata |};
         Certificate.status := "pending";
         Certificate.issued_at := issued_at;
         Certificate.updated_at := updated_at |} in
    certificates_set certificate_id certificate;;
    timestamp ← Date_toISOString;
    let initial_log :=
      {| UpdateLog.timestamp := timestamp; UpdateLog.action := "issued";
         UpdateLog.reason := "Certificate issued"; UpdateLog.by_account := caller |} in
    certificate_history_set certificate_id [initial_log];;
    log ("Certificate issued: " +:+ certificate_id +:+ " for " +:+ learner_id);;
    mret certificate_id).

Definition update_certificate_status (certificate_id new_status : string) : M unit :=
  call false (
    caller ← predecessorAccountId;
    found ← certificates_get certificate_id;
    match found with
    | None => throw (Error "Certificate not found")
    | Some certificate =>
        throw_if
          (negb (CertificateMetadata.issuer_org_id (Certificate.metadata certificate)
                 =? caller))
          (Error "Unauthorized to update this certificate");;
        updated_at ← Date_toISOString;
        let certificate :=
          {| Certificate.id := Certificate.id certificate;
             Certificate.metadata := Certificate.metadata certificate;
             Certificate.status := new_status;
             Certificate.issued_at := Certificate.issued_at certificate;
             Certificate.updated_at := updated_at |} in
        certificates_set certificate_id certificate;;
        stored ← certificate_history_get certificate_id;
        let history := or_empty stored in
        timestamp ← Date_toISOString;
        let history := history ++
          [ {| UpdateLog.timestamp := timestamp; UpdateLog.action := "status_updated";
               UpdateLog.reason := "Status changed to " +:+ new_status;
               UpdateLog.by_account := caller |} ] in
        certificate_history_set certificate_id history;;
        log ("Certificate " +:+ certificate_id +:+ " status updated to: " +:+ new_status)
    end).

Definition revoke_certificate (certificate_id reason : string) : M unit :=
  call false (
    caller ← predecessorAccountId;
    found ← certificates_get certificate_id;
    match found with
    | None => throw (Error "Certificate not found")
    | Some certificate =>
        throw_if
          (negb (CertificateMetadata.issuer_org_id (Certificate.metadata certificate)
                 =? caller))
          (Error "Unauthorized to revoke this certificate");;
        updated_at ← Date_toISOString;
        let certificate :=
          {| Certificate.id := Certificate.id certificate;
             Certificate.metadata := Certificate.metadata certificate;
             Certificate.status := "revoked";
             Certificate.issued_at := Certificate.issued_at certificate;
             Certificate.updated_at := updated_at |} in
        certificates_set certificate_id certificate;;
        stored ← certificate_history_get certificate_id;
        let history := or_empty stored in
        timestamp ← Date_toISOString;
        let history := history ++
          [ {| UpdateLog.timestamp := timestamp; UpdateLog.action := "revoked";
               UpdateLog.reason := reason; UpdateLog.by_account := caller |} ] in
        certificate_history_set certificate_id history;;
        log ("Certificate " +:+ certificate_id +:+ " revoked. Reason: " +:+ reason)
    end).

Definition grant_reward (learner_id milestone : string) : M string :=
  call false (
    learner ← individuals_get learner_id;
    throw_if (negb (truthy learner)) (Error "Learner not found");;
    counter ← reward_counter_incr;
    let reward_id := reward_id counter in
    granted_at ← Date_toISOString;
    let reward :=
      {| Reward.id := reward_id; Reward.learner_id := learner_id;
         Reward.milestone := milestone; Reward.amount := "100";
         Reward.granted_at := granted_at |} in
    rewards_set reward_id reward;;
    log ("Reward granted: " +:+ reward_id +:+ " to " +:+ learner_id
         +:+ " for " +:+ milestone);;
    mret reward_id).

(** The body of the [for] loop of [list_rewards], from index [i], with
    [remaining] iterations left before [i] exceeds the counter. *)
Fixpoint list_rewards_loop (learner_id : string) (remaining i : nat)
    (rewards : list Reward.t) : M (list Reward.t) :=
  match remaining with
  | 0 => mret rewards
  | S remaining' =>
      reward ← rewards_get (reward_id i);
      let rewards :=
        match reward with
        | Some r => if Reward.learner_id r =? learner_id then rewards ++ [r] else rewards
        | None => rewards
        end in
      list_rewards_loop learner_id remaining' (S i) rewards
  end.

Definition list_rewards (learner_id : string) : M (list Reward.t) :=
  c ← get_this;
  list_rewards_loop learner_id (reward_counter c) 1 [].

Definition validate_certificate (certificate_id : string)
    : M (option CertificateMetadata.t) :=
  found ← certificates_get certificate_id;
  match found with
  | None => mret None
  | Some certificate =>
      throw_if (Certificate.status certificate =? "revoked")
        (Error "Certificate has been revoked");;
      mret (Some (Certificate.metadata certificate))
  end.

Definition get_certificate_history (certificate_id : string) : M (list UpdateLog.t) :=
  history ← certificate_history_get certificate_id;
  mret (or_empty history).

Definition process_payment (recipient_id amount : string) : M unit :=
  call true (
    sender ← predecessorAccountId;
    attached_deposit ← attachedDeposit;
    payment_amount ← BigInt amount;
    throw_if (attached_deposit <? payment_amount)%Z (Error "Insufficient attached deposit");;
    individual ← individuals_get recipient_id;
    organization ← organizations_get recipient_id;
    throw_if (negb (truthy individual) && negb (truthy organization))
      (Error "Recipient not found");;
    promise ← promiseBatchCreate recipient_id;
    promiseBatchActionTransfer promise payment_amount;;
    promiseReturn promise;;
    log ("Payment processed: " +:+ sender +:+ " -> " +:+ recipient_id
         +:+ ", amount: " +:+ amount)).

Definition get_individual (account_id : string) : M (option Individual.t) :=
  individuals_get account_id.

Definition get_organization (account_id : string) : M (option Organization.t) :=
  organizations_get account_id.

Definition get_certificate (certificate_id : string) : M (option Certificate.t) :=
  certificates_get certificate_id.

(** ** Calls as the host performs them *)

(** What a method returns to the host: nothing, or a string. *)
Inductive Value :=
| undefined
| str (s : string).

(** The state-changing entry points with their arguments. *)
Inductive Request :=
| Register_individual (name dob email : string)
| Register_organization (name contact_info : string)
| Verify_organization (organization_id : string)
| Issue_certificate (learner_id course_id : string) (metadata : CertificateMetadata.t)
| Update_certificate_status (certificate_id new_status : string)
| Revoke_certificate (certificate_id reason : string)
| Grant_reward (learner_id milestone : string)
| Process_payment (recipient_id amount : string).

Definition dispatch (r : Request) : M Value :=
  match r with
  | Register_individual name dob email =>
      register_individual name dob email;; mret undefined
  | Register_organization name contact_info =>
      register_organization name contact_info;; mret undefined
  | Verify_organization organization_id =>
      verify_organization organization_id;; mret undefined
  | Issue_certificate learner_id course_id metadata =>
      id ← issue_certificate learner_id course_id metadata; mret (str id)
  | Update_certificate_status certificate_id new_status =>
      update_certificate_status certificate_id new_status;; mret undefined
  | Revoke_certificate certificate_id reason =>
      revoke_certificate certificate_id reason;; mret undefined
  | Grant_reward learner_id milestone =>
      id ← grant_reward learner_id milestone; mret (str id)
  | Process_payment recipient_id amount =>
      process_payment recipient_id amount;; mret undefined
  end.

(** One call: the body runs on the stored contract; when it throws, the
    host keeps none of its writes. *)
Definition invoke (ctx : near.Context) (r : Request) (c : AchievoContract)
    : Completion Value * AchievoContract :=
  match dispatch r ctx (start c) with
  | (Normal v, m) => (Normal v, this m)
  | (Throw e, _) => (Throw e, c)
  end.

(** A read-only call: the value the body completes with. *)
Definition view {A} (ctx : near.Context) (body : M A) (c : AchievoContract)
    : Completion A :=
  fst (body ctx (start c)).

(** A call as recorded: who called what, and how it completed. *)
Definition Entry : Type := near.Context * Request * Completion Value.

(** A sequence of calls, one after the other; the record of the calls and
    the contract they leave. *)
Fixpoint run (calls : list (near.Context * Request)) (c : AchievoContract)
    : list Entry * AchievoContract :=
  match calls with
  | [] => ([], c)
  | (ctx, r) :: calls' =>
      let '(outcome, c') := invoke ctx r c in
      let '(entries, c'') := run calls' c' in
      ((ctx, r, outcome) :: entries, c'')
  end.

(** ** Vocabulary of the specification *)

(** The specification's names for the failures. *)
Inductive ErrorKind :=
| AlreadyRegistered
| NotFound
| Unauthorized
| InsufficientFunds
| Revoked.

(** The failure each thrown message stands for. *)
Definition kind_of (e : JsError) : option ErrorKind :=
  match e with
  | Error msg =>
      if msg =? "Individual already registered" then Some AlreadyRegistered
      else if msg =? "Organization already registered" then Some AlreadyRegistered
      else if msg =? "Organization not found" then Some NotFound
      else if msg =? "Learner not found" then Some NotFound
      else if msg =? "Certificate not found" then Some NotFound
      else if msg =? "Recipient not found" then Some NotFound
      else if msg =? "Only verified organizations can issue certificates"
        then Some Unauthorized
      else if msg =? "Unauthorized to update this certificate" then Some Unauthorized
      else if msg =? "Unauthorized to revoke this certificate" then Some Unauthorized
      else if msg =? "Insufficient attached deposit" then Some InsufficientFunds
      else if msg =? "Certificate has been revoked" then Some Revoked
      else None
  | SyntaxError _ => None
  end.

(** A computation fails with a given kind, having written nothing. *)
Definition fails_with {A} (k : ErrorKind) (body : M A) (ctx : near.Context)
    (c : AchievoContract) : Prop :=
  ∃ e, body ctx (start c) = (Throw e, start c) ∧ kind_of e = Some k.

(** The certificate ids handed out by the successful [issue_certificate]
    calls of a record, oldest first. *)
Definition issued_id (e : Entry) : option string :=
  match e with
  | (_, Issue_certificate _ _ _, Normal (str id)) => Some id
  | _ => None
  end.

Definition issued_ids (entries : list Entry) : list string := omap issued_id entries.

(** Whether an entry is a successful [update_certificate_status] or
    [revoke_certificate] on a given certificate. *)
Definition mutates (certificate_id : string) (e : Entry) : bool :=
  match e with
  | (_, Update_certificate_status id _, Normal _)
  | (_, Revoke_certificate id _, Normal _) => id =? certificate_id
  | _ => false
  end.

(** Whether an entry is an [update_certificate_status] or
    [revoke_certificate] call on a given certificate, successful or not. *)
Definition targets (certificate_id : string) (e : Entry) : bool :=
  match e with
  | (_, Update_certificate_status id _, _)
  | (_, Revoke_certificate id _, _) => id =? certificate_id
  | _ => false
  end.

(** The history line that a mutating call leaves. *)
Definition log_of (e : Entry) : option UpdateLog.t :=
  match e with
  | (ctx, Update_certificate_status _ new_status, _) =>
      Some {| UpdateLog.timestamp := near.clock ctx 1;
              UpdateLog.action := "status_updated";
              UpdateLog.reason := "Status changed to " +:+ new_status;
              UpdateLog.by_account := near.predecessor ctx |}
  | (ctx, Revoke_certificate _ reason, _) =>
      Some {| UpdateLog.timestamp := near.clock ctx 1;
              UpdateLog.action := "revoked";
              UpdateLog.reason := reason;
              UpdateLog.by_account := near.predecessor ctx |}
  | _ => None
  end.

(** The reward that a successful [grant_reward] call creates. *)
Definition granted_reward (e : Entry) : option Reward.t :=
  match e with
  | (ctx, Grant_reward learner_id milestone, Normal (str id)) =>
      Some {| Reward.id := id; Reward.learner_id := learner_id;
              Reward.milestone := milestone; Reward.amount := "100";
              Reward.granted_at := near.clock ctx 0 |}
  | _ => None
  end.

Definition granted (entries : list Entry) : list Reward.t := omap granted_reward entries.

(** A context that differs in the caller only. *)
Definition called_by (caller : string) (ctx : near.Context) : near.Context :=
  {| near.predecessor := caller; near.deposit := near.deposit ctx;
     near.clock := near.clock ctx |}.

(** ** Predicates on the contract *)

(** An account is a registered organization whose [verified] flag is set. *)
Definition verified_in (c : AchievoContract) (organization_id : string) : Prop :=
  ∃ o, organizations c !! organization_id = Some o ∧ Organization.verified o = true.

(** A certificate is stored under the id and bound to the issuer. *)
Definition bound_to (c : AchievoContract) (certificate_id issuer : string) : Prop :=
  ∃ cert,
    certificates c !! certificate_id = Some cert
    ∧ CertificateMetadata.issuer_org_id (Certificate.metadata cert) = issuer.

(** The rewards of the contract are those of the list [g], oldest first:
    the counter is their number and the i-th of them is stored under
    [reward_<i>], which is also its id. *)
Definition ledger (c : AchievoContract) (g : list Reward.t) : Prop :=
  reward_counter c = length g
  ∧ ∀ i r, g !! i = Some r →
      rewards c !! reward_id (S i) = Some r ∧ Reward.id r = reward_id (S i).

(** The filter of [list_rewards]. *)
Definition granted_to (learner_id : string) (r : Reward.t) : bool :=
  Reward.learner_id r =? learner_id.

(** The entry points declared [@call({ payableFunction: true })]. *)
Definition payable (r : Request) : bool :=
  match r with Process_payment _ _ => true | _ => false end.

(** The decorator lets the call through: the entry point is payable, or
    nothing is attached. *)
Definition accepted (ctx : near.Context) (r : Request) : Prop :=
  match r with
  | Process_payment _ _ => True
  | _ => near.deposit ctx = 0%N
  end.

(** How a call on a certificate bound to [issuer] is answered: with a
    deposit it is rejected as not payable; without one it completes when
    the caller is the issuer, and fails with Unauthorized otherwise. *)
Definition answered (issuer : string) (e : Entry) : Prop :=
  match e with
  | (ctx, _, outcome) =>
      if (near.deposit ctx =? 0)%N then
        if issuer =? near.predecessor ctx then outcome = Normal undefined
        else ∃ err, outcome = Throw err ∧ kind_of err = Some Unauthorized
      else outcome = Throw (Error "Function is not payable")
  end.

(** ** A concrete scenario

    The scenario of the specification: [alice] registers as an individual,
    [school] as an organization, a third account verifies [school], which
    then issues a certificate to [alice]. *)

Module Scenario.
Definition ctx (caller : string) (deposit : N) : near.Context :=
  {| near.predecessor := caller; near.deposit := deposit;
     near.clock := λ k, "2024-01-15T00:00:0" +:+ pretty k +:+ ".000Z" |}.

(** A payload that also carries the three fields the contract sets. *)
Definition payload : CertificateMetadata.t :=
  {| CertificateMetadata.learner_id := "mallory.testnet";
     CertificateMetadata.course_id := "forged-course";
     CertificateMetadata.course_name := "Blockchain Fundamentals";
     CertificateMetadata.completion_date := "2024-01-15";
     CertificateMetadata.issuer_org_id := "mallory.testnet";
     CertificateMetadata.skills := ["blockchain"; "cryptocurrency"];
     CertificateMetadata.grade := Some "A" |}.

Definition setup : list (near.Context * Request) :=
  [ (ctx "alice" 0, Register_individual "Alice" "1990-01-01" "alice@example.com");
    (ctx "school" 0, Register_organization "School" "school@example.com");
    (ctx "bob" 0, Verify_organization "school") ].

Definition registered : AchievoContract := snd (run setup constructor).

Definition issue : near.Context * Request :=
  (ctx "school" 0, Issue_certificate "alice" "course1" payload).

Definition issued : AchievoContract := snd (run (setup ++ [issue]) constructor).

Definition revoked : AchievoContract :=
  snd (run [(ctx "school" 0, Revoke_certificate "cert_1" "fraud")] issued).

(** Calls made after the issuance, by the issuer and by others. *)
Definition mutations : list (near.Context * Request) :=
  [ (ctx "school" 0, Update_certificate_status "cert_1" "completed");
    (ctx "bob" 0, Revoke_certificate "cert_1" "spite");
    (ctx "bob" 0, Grant_reward "alice" "first course");
    (ctx "school" 0, Revoke_certificate "cert_1" "fraud");
    (ctx "alice" 0, Update_certificate_status "cert_1" "completed") ].

Definition grants : list (near.Context * Request) :=
  [ (ctx "bob" 0, Grant_reward "alice" "first course");
    (ctx "school" 0, Grant_reward "carol" "unregistered");
    (ctx "alice" 0, Register_individual "Alice" "1990-01-01" "alice@example.com");
    (ctx "carol" 0, Register_individual "Carol" "1991-02-02" "carol@example.com");
    (ctx "school" 0, Grant_reward "carol" "first course");
    (ctx "carol" 0, Grant_reward "alice" "second course") ].
End Scenario.

(** ** Further vocabulary *)

Definition is_log (e : near.Effect) : bool :=
  match e with near.Log _ => true | _ => false end.

(** The failures an entry point can answer with. *)
Definition may_fail_with (r : Request) : list ErrorKind :=
  match r with
  | Register_individual _ _ _ | Register_organization _ _ => [AlreadyRegistered]
  | Verify_organization _ | Grant_reward _ _ => [NotFound]
  | Issue_certificate _ _ _ => [Unauthorized; NotFound]
  | Update_certificate_status _ _ | Revoke_certificate _ _ => [NotFound; Unauthorized]
  | Process_payment _ _ => [InsufficientFunds; NotFound]
  end.

(** The rewards stored under [reward_1], ..., [reward_<counter>], in that
    order, skipping the keys that hold nothing. *)
Definition stored_rewards (c : AchievoContract) : list Reward.t :=
  omap (λ k, rewards c !! reward_id k) (seq 1 (reward_counter c)).

(** Two organization records differ at most in that the second is verified. *)
Definition same_or_verified (o o' : Organization.t) : Prop :=
  Organization.id o' = Organization.id o
  ∧ Organization.name o' = Organization.name o
  ∧ Organization.contact_info o' = Organization.contact_info o
  ∧ Organization.registered_at o' = Organization.registered_at o
  ∧ (Organization.verified o = true → Organization.verified o' = true).

(** The certificates and histories of the contract are those numbered 1 to
    the counter, and nothing else. *)
Definition numbered (c : AchievoContract) : Prop :=
  (∀ id, is_Some (certificates c !! id)
         ↔ ∃ k, (1 ≤ k ≤ certificate_counter c)%nat ∧ id = cert_id k)
  ∧ (∀ id, is_Some (certificate_history c !! id) ↔ is_Some (certificates c !! id)).

(** A certificate stored under [id] carries that id, names a verified
    organization as issuer and a registered individual as learner, and its
    history starts with the issuance and has lines by the issuer only. *)
Definition certificate_sound (c : AchievoContract) (id : string)
    (cert : Certificate.t) : Prop :=
  Certificate.id cert = id
  ∧ verified_in c (CertificateMetadata.issuer_org_id (Certificate.metadata cert))
  ∧ is_Some (individuals c
               !! CertificateMetadata.learner_id (Certificate.metadata cert))
  ∧ ∃ first rest,
      certificate_history c !! id = Some (first :: rest)
      ∧ UpdateLog.action first = "issued"
      ∧ Forall (λ l, UpdateLog.by_account l
                     = CertificateMetadata.issuer_org_id (Certificate.metadata cert))
          (first :: rest).

(** Every individual and organization carries its key, and every stored
    certificate is sound. *)
Definition sound (c : AchievoContract) : Prop :=
  (∀ a i, individuals c !! a = Some i → Individual.id i = a)
  ∧ (∀ a o, organizations c !! a = Some o → Organization.id o = a)
  ∧ (∀ id cert, certificates c !! id = Some cert → certificate_sound c id cert).

Example BigInt_decimal : StringToBigInt "100" = Some 100%Z.
Proof. reflexivity. Qed.

Example BigInt_trimmed_hex : StringToBigInt " 0x1f " = Some 31%Z.
Proof. reflexivity. Qed.

Example BigInt_negative : StringToBigInt "-5" = Some (-5)%Z.
Proof. reflexivity. Qed.

Example BigInt_empty : StringToBigInt "" = Some 0%Z.
Proof. reflexivity. Qed.

Example BigInt_not_a_number : StringToBigInt "1.5" = None.
Proof. reflexivity. Qed.

Example BigInt_signed_hex : StringToBigInt "-0x10" = None.
Proof. reflexivity. Qed.

Example BigInt_no_break_space : StringToBigInt (utf8 [194; 160] +:+ "10") = Some 10%Z.
Proof. reflexivity. Qed.

Example BigInt_unicode_white_space :
  StringToBigInt (utf8 [239; 187; 191; 9] +:+ "0b101" +:+ utf8 [226; 128; 168; 227; 128; 128])
  = Some 5%Z.
Proof. reflexivity. Qed.

Example BigInt_white_space_only : StringToBigInt (utf8 [32; 226; 128; 137; 10]) = Some 0%Z.
Proof. reflexivity. Qed.

Example BigInt_inner_space : StringToBigInt "1 0" = None.
Proof. reflexivity. Qed.

(** ** Running the bodies *)

(** Unfolds a method body down to the lookups it branches on. *)
Ltac unfold_body :=
  cbv [invoke view dispatch fails_with call
       register_individual register_organization verify_organization
       issue_certificate update_certificate_status revoke_certificate
       grant_reward list_rewards validate_certificate get_certificate_history
       process_payment get_individual get_organization get_certificate
       individuals_get individuals_set organizations_get organizations_set
       certificates_get certificates_set rewards_get rewards_set
       certificate_history_get certificate_history_set
       certificate_counter_incr reward_counter_incr BigInt
       predecessorAccountId attachedDeposit Date_toISOString log
       promiseBatchCreate promiseBatchActionTransfer promiseReturn
       get_this set_this emit throw throw_if
       mbind M_bind mret M_ret start this emitted ticks fst snd];
  cbn [individuals organizations certificates rewards certificate_history
       certificate_counter reward_counter negb andb].

(** Passes the check of a method that is not payable, given that nothing
    is attached. *)
Ltac no_deposit Hd :=
  rewrite ?Hd; change (0 <? Z.of_N 0)%Z with false; unfold_body.

Ltac simpl_contract :=
  cbn [individuals organizations certificates rewards certificate_history
       certificate_counter reward_counter fst snd this emitted ticks
       Certificate.id Certificate.metadata Certificate.status
       Certificate.issued_at Certificate.updated_at
       CertificateMetadata.learner_id CertificateMetadata.course_id
       CertificateMetadata.course_name CertificateMetadata.completion_date
       CertificateMetadata.issuer_org_id CertificateMetadata.skills
       CertificateMetadata.grade
       Organization.id Organization.name Organization.contact_info
       Organization.verified Organization.registered_at
       Reward.id Reward.learner_id Reward.milestone Reward.amount
       Reward.granted_at
       UpdateLog.timestamp UpdateLog.action UpdateLog.reason
       UpdateLog.by_account] in *.

Lemma invoke_register_individual ctx (Hd : near.deposit ctx = 0%N) name dob email c :
  invoke ctx (Register_individual name dob email) c =
    match individuals c !! near.predecessor ctx with
    | Some _ => (Throw (Error "Individual already registered"), c)
    | None =>
        (Normal undefined,
         {| individuals :=
              <[near.predecessor ctx :=
                  {| Individual.id := near.predecessor ctx; Individual.name := name;
                     Individual.dob := dob; Individual.email := email;
                     Individual.registered_at := near.clock ctx 0 |}]> (individuals c);
            organizations := organizations c; certificates := certificates c;
            rewards := rewards c; certificate_history := certificate_history c;
            certificate_counter := certificate_counter c;
            reward_counter := reward_counter c |})
    end.
Proof. unfold_body. no_deposit Hd. by destruct (individuals c !! _). Qed.

Lemma invoke_register_organization ctx (Hd : near.deposit ctx = 0%N) name contact_info c :
  invoke ctx (Register_organization name contact_info) c =
    match organizations c !! near.predecessor ctx with
    | Some _ => (Throw (Error "Organization already registered"), c)
    | None =>
        (Normal undefined,
         {| individuals := individuals c;
            organizations :=
              <[near.predecessor ctx :=
                  {| Organization.id := near.predecessor ctx;
                     Organization.name := name;
                     Organization.contact_info := contact_info;
                     Organization.verified := false;
                     Organization.registered_at := near.clock ctx 0 |}]>
                (organizations c);
            certificates := certificates c;
            rewards := rewards c; certificate_history := certificate_history c;
            certificate_counter := certificate_counter c;
            reward_counter := reward_counter c |})
    end.
Proof. unfold_body. no_deposit Hd. by destruct (organizations c !! _). Qed.

Lemma invoke_verify_organization ctx (Hd : near.deposit ctx = 0%N) organization_id c :
  invoke ctx (Verify_organization organization_id) c =
    match organizations c !! organization_id with
    | None => (Throw (Error "Organization not found"), c)
    | Some o =>
        (Normal undefined,
         {| individuals := individuals c;
            organizations :=
              <[organization_id :=
                  {| Organization.id := Organization.id o;
                     Organization.name := Organization.name o;
                     Organization.contact_info := Organization.contact_info o;
                     Organization.verified := true;
                     Organization.registered_at := Organization.registered_at o |}]>
                (organizations c);
            certificates := certificates c;
            rewards := rewards c; certificate_history := certificate_history c;
            certificate_counter := certificate_counter c;
            reward_counter := reward_counter c |})
    end.
Proof. unfold_body. no_deposit Hd. by destruct (organizations c !! _). Qed.

Lemma invoke_issue_certificate ctx (Hd : near.deposit ctx = 0%N) learner_id course_id metadata c :
  invoke ctx (Issue_certificate learner_id course_id metadata) c =
    if not_verified (organizations c !! near.predecessor ctx)
    then (Throw (Error "Only verified organizations can issue certificates"), c)
    else match individuals c !! learner_id with
    | None => (Throw (Error "Learner not found"), c)
    | Some _ =>
        (Normal (str (cert_id (S (certificate_counter c)))),
         {| individuals := individuals c; organizations := organizations c;
            certificates :=
              <[cert_id (S (certificate_counter c)) :=
                  {| Certificate.id := cert_id (S (certificate_counter c));
                     Certificate.metadata :=
                       {| CertificateMetadata.learner_id := learner_id;
                          CertificateMetadata.course_id := course_id;
                          CertificateMetadata.course_name :=
                            CertificateMetadata.course_name metadata;
                          CertificateMetadata.completion_date :=
                            CertificateMetadata.completion_date metadata;
                          CertificateMetadata.issuer_org_id := near.predecessor ctx;
                          CertificateMetadata.skills :=
                            CertificateMetadata.skills metadata;
                          CertificateMetadata.grade :=
                            CertificateMetadata.grade metadata |};
                     Certificate.status := "pending";
                     Certificate.issued_at := near.clock ctx 0;
                     Certificate.updated_at := near.clock ctx 1 |}]>
                (certificates c);
            rewards := rewards c;
            certificate_history :=
              <[cert_id (S (certificate_counter c)) :=
                  [ {| UpdateLog.timestamp := near.clock ctx 2;
                       UpdateLog.action := "issued";
                       UpdateLog.reason := "Certificate issued";
                       UpdateLog.by_account := near.predecessor ctx |} ]]>
                (certificate_history c);
            certificate_counter := S (certificate_counter c);
            reward_counter := reward_counter c |})
    end.
Proof.
  unfold_body. no_deposit Hd. destruct (not_verified _); [done|].
  by destruct (individuals c !! _).
Qed.

Lemma invoke_update_certificate_status ctx (Hd : near.deposit ctx = 0%N) certificate_id new_status c :
  invoke ctx (Update_certificate_status certificate_id new_status) c =
    match certificates c !! certificate_id with
    | None => (Throw (Error "Certificate not found"), c)
    | Some cert =>
        if CertificateMetadata.issuer_org_id (Certificate.metadata cert)
           =? near.predecessor ctx
        then
          (Normal undefined,
           {| individuals := individuals c; organizations := organizations c;
              certificates :=
                <[certificate_id :=
                    {| Certificate.id := Certificate.id cert;
                       Certificate.metadata := Certificate.metadata cert;
                       Certificate.status := new_status;
                       Certificate.issued_at := Certificate.issued_at cert;
                       Certificate.updated_at := near.clock ctx 0 |}]> (certificates c);
              rewards := rewards c;
              certificate_history :=
                <[certificate_id :=
                    or_empty (certificate_history c !! certificate_id) ++
                    [ {| UpdateLog.timestamp := near.clock ctx 1;
                         UpdateLog.action := "status_updated";
                         UpdateLog.reason := "Status changed to " +:+ new_status;
                         UpdateLog.by_account := near.predecessor ctx |} ]]>
                  (certificate_history c);
              certificate_counter := certificate_counter c;
              reward_counter := reward_counter c |})
        else (Throw (Error "Unauthorized to update this certificate"), c)
    end.
Proof.
  unfold_body. no_deposit Hd. destruct (certificates c !! _) as [cert|]; [|done].
  by destruct (_ =? _).
Qed.

Lemma invoke_revoke_certificate ctx (Hd : near.deposit ctx = 0%N) certificate_id reason c :
  invoke ctx (Revoke_certificate certificate_id reason) c =
    match certificates c !! certificate_id with
    | None => (Throw (Error "Certificate not found"), c)
    | Some cert =>
        if CertificateMetadata.issuer_org_id (Certificate.metadata cert)
           =? near.predecessor ctx
        then
          (Normal undefined,
           {| individuals := individuals c; organizations := organizations c;
              certificates :=
                <[certificate_id :=
                    {| Certificate.id := Certificate.id cert;
                       Certificate.metadata := Certificate.metadata cert;
                       Certificate.status := "revoked";
                       Certificate.issued_at := Certificate.issued_at cert;
                       Certificate.updated_at := near.clock ctx 0 |}]> (certificates c);
              rewards := rewards c;
              certificate_history :=
                <[certificate_id :=
                    or_empty (certificate_history c !! certificate_id) ++
                    [ {| UpdateLog.timestamp := near.clock ctx 1;
                         UpdateLog.action := "revoked";
                         UpdateLog.reason := reason;
                         UpdateLog.by_account := near.predecessor ctx |} ]]>
                  (certificate_history c);
              certificate_counter := certificate_counter c;
              reward_counter := reward_counter c |})
        else (Throw (Error "Unauthorized to revoke this certificate"), c)
    end.
Proof.
  unfold_body. no_deposit Hd. destruct (certificates c !! _) as [cert|]; [|done].
  by destruct (_ =? _).
Qed.

Lemma invoke_grant_reward ctx (Hd : near.deposit ctx = 0%N) learner_id milestone c :
  invoke ctx (Grant_reward learner_id milestone) c =
    match individuals c !! learner_id with
    | None => (Throw (Error "Learner not found"), c)
    | Some _ =>
        (Normal (str (reward_id (S (reward_counter c)))),
         {| individuals := individuals c; organizations := organizations c;
            certificates := certificates c;
            rewards :=
              <[reward_id (S (reward_counter c)) :=
                  {| Reward.id := reward_id (S (reward_counter c));
                     Reward.learner_id := learner_id;
                     Reward.milestone := milestone; Reward.amount := "100";
                     Reward.granted_at := near.clock ctx 0 |}]> (rewards c);
            certificate_history := certificate_history c;
            certificate_counter := certificate_counter c;
            reward_counter := S (reward_counter c) |})
    end.
Proof. unfold_body. no_deposit Hd. by destruct (individuals c !! _). Qed.

Lemma invoke_process_payment ctx recipient_id amount c :
  ∃ outcome, invoke ctx (Process_payment recipient_id amount) c = (outcome, c).
Proof.
  unfold_body. destruct (StringToBigInt amount) as [a|]; [|by eexists].
  destruct (_ <? _)%Z; [by eexists|].
  destruct (negb _ && negb _); [by eexists|].
  destruct c; by eexists.
Qed.

(** A call with a deposit to a method that is not payable is rejected. *)
Lemma invoke_not_payable ctx r c :
  near.deposit ctx ≠ 0%N →
  payable r = false →
  invoke ctx r c = (Throw (Error "Function is not payable"), c).
Proof.
  intros Hd Hr.
  assert ((0 <? Z.of_N (near.deposit ctx))%Z = true) as Hpos.
  { apply Z.ltb_lt. lia. }
  destruct r; try discriminate Hr; unfold_body; rewrite Hpos; reflexivity.
Qed.

(** Every call is either rejected by the decorator or accepted by it. *)
Lemma invoke_guard ctx r c :
  (near.deposit ctx ≠ 0%N
   ∧ payable r = false
   ∧ invoke ctx r c = (Throw (Error "Function is not payable"), c))
  ∨ accepted ctx r.
Proof.
  destruct (decide (near.deposit ctx = 0%N)) as [Hd|Hd].
  - right. by destruct r.
  - destruct (payable r) eqn:Hr.
    + right. by destruct r.
    + left. split; [done|]. split; [done|]. by apply invoke_not_payable.
Qed.

(** The same for the body of one method. *)
Lemma call_not_payable {A} (method : M A) ctx m :
  near.deposit ctx ≠ 0%N →
  call false method ctx m = (Throw (Error "Function is not payable"), m).
Proof.
  intros Hd.
  assert ((0 <? Z.of_N (near.deposit ctx))%Z = true) as Hpos.
  { apply Z.ltb_lt. lia. }
  unfold_body. rewrite Hpos. reflexivity.
Qed.

Lemma no_deposit_ltb (d : N) : (0 <? Z.of_N d)%Z = false ↔ d = 0%N.
Proof. rewrite Z.ltb_ge. lia. Qed.

(** Case analysis on the decorator of a call. *)
Ltac by_decorator ctx r c :=
  destruct (invoke_guard ctx r c) as [(Hpos & Hpay & Hrej)|Hd];
  [rewrite Hrej | cbn [accepted] in Hd].

(** The rejection of the decorator is none of the failures the
    specification names. *)
Lemma rejected_fails_with_nothing {A} k (method : M A) ctx c :
  near.deposit ctx ≠ 0%N → ¬ fails_with k (call false method) ctx c.
Proof.
  intros Hd (e & He & Hk). rewrite call_not_payable in He by done.
  injection He as <-. discriminate Hk.
Qed.

(** ** Registration *)

(** A successful registration leaves a record under the caller's account. *)
Lemma register_individual_records ctx name dob email c c' :
  invoke ctx (Register_individual name dob email) c = (Normal undefined, c') →
  is_Some (individuals c' !! near.predecessor ctx).
Proof.
  by_decorator ctx (Register_individual name dob email) c; [done|].
  rewrite (invoke_register_individual _ Hd).
  destruct (individuals c !! _); [done|]. intros [= <-]; simpl_contract.
  rewrite lookup_insert_eq. by eexists.
Qed.

Lemma register_organization_records ctx name contact_info c c' :
  invoke ctx (Register_organization name contact_info) c = (Normal undefined, c') →
  is_Some (organizations c' !! near.predecessor ctx).
Proof.
  by_decorator ctx (Register_organization name contact_info) c; [done|].
  rewrite (invoke_register_organization _ Hd).
  destruct (organizations c !! _); [done|]. intros [= <-]; simpl_contract.
  rewrite lookup_insert_eq. by eexists.
Qed.

(** C8, as stated, fails: [alice] is registered, yet her second
    [register_individual], made with a deposit of 5, does not fail with
    AlreadyRegistered: the decorator rejects it as not payable (the
    contract is unchanged all the same). *)
Lemma register_again_counterexample :
  is_Some (individuals Scenario.registered !! "alice")
  ∧ ¬ fails_with AlreadyRegistered
        (register_individual "Alice B." "1990-01-01" "alice@example.org")
        (Scenario.ctx "alice" 5) Scenario.registered
  ∧ invoke (Scenario.ctx "alice" 5)
      (Register_individual "Alice B." "1990-01-01" "alice@example.org")
      Scenario.registered
    = (Throw (Error "Function is not payable"), Scenario.registered).
Proof.
  split; [vm_compute; eauto|]. split.
  - by apply rejected_fails_with_nothing.
  - by apply invoke_not_payable.
Qed.

(** C8 (amended): called with no deposit attached, [register_individual]
    by an account that already has an Individual record, and
    [register_organization] by an account that already has an Organization
    record, fail with AlreadyRegistered; called with a deposit, both are
    rejected as not payable.  Either way the body throws before it writes,
    logs or reads the clock, and the contract the host keeps is the one it
    had. *)
Theorem register_again_fails ctx c :
  (near.deposit ctx = 0%N →
   is_Some (individuals c !! near.predecessor ctx) →
   ∀ name dob email,
     fails_with AlreadyRegistered (register_individual name dob email) ctx c
     ∧ invoke ctx (Register_individual name dob email) c
       = (Throw (Error "Individual already registered"), c))
  ∧ (near.deposit ctx = 0%N →
     is_Some (organizations c !! near.predecessor ctx) →
     ∀ name contact_info,
       fails_with AlreadyRegistered (register_organization name contact_info) ctx c
       ∧ invoke ctx (Register_organization name contact_info) c
         = (Throw (Error "Organization already registered"), c))
  ∧ (near.deposit ctx ≠ 0%N →
     (∀ name dob email,
        register_individual name dob email ctx (start c)
        = (Throw (Error "Function is not payable"), start c)
        ∧ invoke ctx (Register_individual name dob email) c
          = (Throw (Error "Function is not payable"), c))
     ∧ (∀ name contact_info,
          register_organization name contact_info ctx (start c)
          = (Throw (Error "Function is not payable"), start c)
          ∧ invoke ctx (Register_organization name contact_info) c
            = (Throw (Error "Function is not payable"), c))).
Proof.
  split; [|split].
  - intros Hd [i Hi] name dob email. split.
    + exists (Error "Individual already registered"). split; [|done].
      unfold_body. no_deposit Hd. by rewrite Hi.
    + rewrite (invoke_register_individual _ Hd). by rewrite Hi.
  - intros Hd [o Ho] name contact_info. split.
    + exists (Error "Organization already registered"). split; [|done].
      unfold_body. no_deposit Hd. by rewrite Ho.
    + rewrite (invoke_register_organization _ Hd). by rewrite Ho.
  - intros Hd. split; intros; (split; [by apply call_not_payable|]);
      by apply invoke_not_payable.
Qed.

Lemma register_again_fails_witness :
  (is_Some (individuals Scenario.registered !! "alice")
   ∧ invoke (Scenario.ctx "alice" 0)
       (Register_individual "Alice B." "1990-01-01" "alice@example.org")
       Scenario.registered
     = (Throw (Error "Individual already registered"), Scenario.registered))
  ∧ (is_Some (organizations Scenario.registered !! "school")
     ∧ invoke (Scenario.ctx "school" 0)
         (Register_organization "School" "other@example.org") Scenario.registered
       = (Throw (Error "Organization already registered"), Scenario.registered))
  ∧ invoke (Scenario.ctx "school" 5)
      (Register_organization "School" "other@example.org") Scenario.registered
    = (Throw (Error "Function is not payable"), Scenario.registered).
Proof.
  assert (Hi : is_Some (individuals Scenario.registered !! "alice"))
    by (vm_compute; eauto).
  assert (Ho : is_Some (organizations Scenario.registered !! "school"))
    by (vm_compute; eauto).
  split; [|split]; [split; [assumption|]|split; [assumption|]|].
  - exact (proj2 (proj1 (register_again_fails (Scenario.ctx "alice" 0)
                           Scenario.registered) eq_refl Hi _ _ _)).
  - exact (proj2 (proj1 (proj2 (register_again_fails (Scenario.ctx "school" 0)
                                  Scenario.registered)) eq_refl Ho _ _)).
  - refine (proj2 (proj2 (proj2 (proj2 (register_again_fails (Scenario.ctx "school" 5)
                                          Scenario.registered)) _) _ _)).
    discriminate.
Defined.

(** ** Validation *)

(** C2: [validate_certificate] returns null when no certificate is stored
    under the id; throws (Revoked) when the stored status is ["revoked"];
    and returns the stored metadata for a certificate of any other status.
    A null result and a thrown failure are different completions. *)
Theorem validate_certificate_spec ctx c certificate_id :
  (certificates c !! certificate_id = None →
   validate_certificate certificate_id ctx (start c) = (Normal None, start c))
  ∧ (∀ cert, certificates c !! certificate_id = Some cert →
       Certificate.status cert = "revoked" →
       fails_with Revoked (validate_certificate certificate_id) ctx c
       ∧ ∀ v, view ctx (validate_certificate certificate_id) c ≠ Normal v)
  ∧ (∀ cert, certificates c !! certificate_id = Some cert →
       Certificate.status cert ≠ "revoked" →
       validate_certificate certificate_id ctx (start c)
       = (Normal (Some (Certificate.metadata cert)), start c)).
Proof.
  split; [|split].
  - intros H. unfold_body. by rewrite H.
  - intros cert H Hs. split.
    + exists (Error "Certificate has been revoked"). split; [|done].
      unfold_body. by rewrite H, Hs.
    + intros v. unfold_body. by rewrite H, Hs.
  - intros cert H Hs. unfold_body. rewrite H.
    apply String.eqb_neq in Hs. by rewrite Hs.
Qed.

Lemma validate_certificate_spec_witness :
  (certificates Scenario.issued !! "cert_2" = None
   ∧ view (Scenario.ctx "bob" 0) (validate_certificate "cert_2") Scenario.issued
     = Normal None)
  ∧ (Certificate.status <$> certificates Scenario.revoked !! "cert_1" = Some "revoked"
     ∧ fails_with Revoked (validate_certificate "cert_1") (Scenario.ctx "bob" 0)
         Scenario.revoked)
  ∧ (Certificate.status <$> certificates Scenario.issued !! "cert_1" = Some "pending"
     ∧ ∃ cert,
         certificates Scenario.issued !! "cert_1" = Some cert
         ∧ view (Scenario.ctx "bob" 0) (validate_certificate "cert_1") Scenario.issued
           = Normal (Some (Certificate.metadata cert))).
Proof.
  assert (H0 : certificates Scenario.issued !! "cert_2" = None)
    by (vm_compute; reflexivity).
  assert (∃ cert, certificates Scenario.revoked !! "cert_1" = Some cert
                  ∧ Certificate.status cert = "revoked") as (cert1 & H1 & Hs1)
    by (eexists; split; vm_compute; reflexivity).
  assert (∃ cert, certificates Scenario.issued !! "cert_1" = Some cert
                  ∧ Certificate.status cert = "pending") as (cert2 & H2 & Hs2)
    by (eexists; split; vm_compute; reflexivity).
  pose proof (validate_certificate_spec (Scenario.ctx "bob" 0) Scenario.issued "cert_2")
    as (Habsent & _).
  pose proof (validate_certificate_spec (Scenario.ctx "bob" 0) Scenario.revoked "cert_1")
    as (_ & Hrevoked & _).
  pose proof (validate_certificate_spec (Scenario.ctx "bob" 0) Scenario.issued "cert_1")
    as (_ & _ & Hvalid).
  split; [|split].
  - split; [exact H0|]. unfold view. by rewrite (Habsent H0).
  - split; [by rewrite H1; cbn; rewrite Hs1|]. exact (proj1 (Hrevoked cert1 H1 Hs1)).
  - split; [by rewrite H2; cbn; rewrite Hs2|]. exists cert2. split; [exact H2|].
    unfold view. rewrite (Hvalid cert2 H2); [done|]. by rewrite Hs2.
Defined.

(** ** Issuance: what is stored *)

(** What a successful [issue_certificate] leaves, in one place. *)
Lemma issue_certificate_ok ctx learner_id course_id metadata c :
  near.deposit ctx = 0%N →
  not_verified (organizations c !! near.predecessor ctx) = false →
  is_Some (individuals c !! learner_id) →
  ∃ m',
    issue_certificate learner_id course_id metadata ctx (start c)
    = (Normal (cert_id (S (certificate_counter c))), m')
    ∧ certificate_counter (this m') = S (certificate_counter c)
    ∧ certificates (this m') !! cert_id (S (certificate_counter c))
      = Some {| Certificate.id := cert_id (S (certificate_counter c));
                Certificate.metadata :=
                  {| CertificateMetadata.learner_id := learner_id;
                     CertificateMetadata.course_id := course_id;
                     CertificateMetadata.course_name :=
                       CertificateMetadata.course_name metadata;
                     CertificateMetadata.completion_date :=
                       CertificateMetadata.completion_date metadata;
                     CertificateMetadata.issuer_org_id := near.predecessor ctx;
                     CertificateMetadata.skills := CertificateMetadata.skills metadata;
                     CertificateMetadata.grade := CertificateMetadata.grade metadata |};
                Certificate.status := "pending";
                Certificate.issued_at := near.clock ctx 0;
                Certificate.updated_at := near.clock ctx 1 |}
    ∧ certificate_history (this m') !! cert_id (S (certificate_counter c))
      = Some [ {| UpdateLog.timestamp := near.clock ctx 2;
                  UpdateLog.action := "issued";
                  UpdateLog.reason := "Certificate issued";
                  UpdateLog.by_account := near.predecessor ctx |} ].
Proof.
  intros Hd Hv [i Hi]. unfold_body. no_deposit Hd. rewrite Hv, Hi. cbv beta iota.
  eexists. split; [reflexivity|]. simpl_contract.
  by rewrite !lookup_insert_eq.
Qed.

(** A completed [issue_certificate] was called without deposit by a
    verified organization for a registered learner. *)
Lemma issue_certificate_returns ctx learner_id course_id metadata c id m' :
  issue_certificate learner_id course_id metadata ctx (start c) = (Normal id, m') →
  near.deposit ctx = 0%N
  ∧ not_verified (organizations c !! near.predecessor ctx) = false
  ∧ is_Some (individuals c !! learner_id)
  ∧ id = cert_id (S (certificate_counter c)).
Proof.
  destruct (decide (near.deposit ctx = 0%N)) as [Hd|Hd].
  - unfold_body. no_deposit Hd. destruct (not_verified _); [done|].
    destruct (individuals c !! learner_id); [|done].
    cbv beta iota. intros [= <- _]. eauto.
  - unfold issue_certificate. by rewrite call_not_payable.
Qed.

(** C6: after a successful [issue_certificate(learner_id, course_id,
    metadata)] the stored metadata has [learner_id] and [course_id] from the
    parameters and [issuer_org_id] equal to the caller; [course_name],
    [completion_date], [skills] and [grade] are those of the payload; and
    the payload's own values for the three fields have no influence on the
    outcome. *)
Theorem issue_certificate_binds_metadata ctx learner_id course_id metadata c id m' :
  issue_certificate learner_id course_id metadata ctx (start c) = (Normal id, m') →
  (∃ cert,
     certificates (this m') !! id = Some cert
     ∧ Certificate.metadata cert
       = {| CertificateMetadata.learner_id := learner_id;
            CertificateMetadata.course_id := course_id;
            CertificateMetadata.course_name := CertificateMetadata.course_name metadata;
            CertificateMetadata.completion_date :=
              CertificateMetadata.completion_date metadata;
            CertificateMetadata.issuer_org_id := near.predecessor ctx;
            CertificateMetadata.skills := CertificateMetadata.skills metadata;
            CertificateMetadata.grade := CertificateMetadata.grade metadata |})
  ∧ (∀ l' c' i',
       issue_certificate learner_id course_id
         {| CertificateMetadata.learner_id := l';
            CertificateMetadata.course_id := c';
            CertificateMetadata.course_name := CertificateMetadata.course_name metadata;
            CertificateMetadata.completion_date :=
              CertificateMetadata.completion_date metadata;
            CertificateMetadata.issuer_org_id := i';
            CertificateMetadata.skills := CertificateMetadata.skills metadata;
            CertificateMetadata.grade := CertificateMetadata.grade metadata |}
         ctx (start c)
       = (Normal id, m')).
Proof.
  intros H.
  destruct (issue_certificate_returns _ _ _ _ _ _ _ H) as (Hd & Hv & Hi & ->).
  destruct (issue_certificate_ok ctx learner_id course_id metadata c Hd Hv Hi)
    as (m'' & Hrun & _ & Hcert & _).
  rewrite H in Hrun. injection Hrun as <-.
  split; [eexists; split; [exact Hcert|reflexivity]|].
  intros l' c' i'. rewrite <- H. reflexivity.
Qed.

Lemma issue_certificate_binds_metadata_witness :
  ∃ m',
    issue_certificate "alice" "course1" Scenario.payload (Scenario.ctx "school" 0)
      (start Scenario.registered) = (Normal "cert_1", m')
    ∧ CertificateMetadata.issuer_org_id ∘ Certificate.metadata
        <$> certificates (this m') !! "cert_1" = Some "school"
    ∧ CertificateMetadata.learner_id ∘ Certificate.metadata
        <$> certificates (this m') !! "cert_1" = Some "alice"
    ∧ CertificateMetadata.course_id ∘ Certificate.metadata
        <$> certificates (this m') !! "cert_1" = Some "course1".
Proof.
  eexists. split; [vm_compute; reflexivity|].
  match goal with
  | |- context [this ?m] =>
      destruct (proj1 (issue_certificate_binds_metadata (Scenario.ctx "school" 0)
                  "alice" "course1" Scenario.payload Scenario.registered "cert_1" m
                  ltac:(vm_compute; reflexivity)))
        as (cert & -> & Hmeta)
  end.
  cbn. rewrite Hmeta. done.
Defined.

(** ** Organizations *)

Lemma not_verified_false c organization_id :
  not_verified (organizations c !! organization_id) = false
  ↔ verified_in c organization_id.
Proof.
  unfold verified_in, not_verified. destruct (organizations c !! _) as [o|].
  - rewrite negb_false_iff. split.
    + intros Hv. by exists o.
    + by intros (o' & [= <-] & Hv).
  - split; [done|]. by intros (o & Ho & _).
Qed.

Lemma not_verified_true c organization_id :
  not_verified (organizations c !! organization_id) = true
  ↔ ¬ verified_in c organization_id.
Proof.
  rewrite <- not_verified_false. destruct (not_verified _); split; congruence.
Qed.

(** One call never takes the verified flag of an organization away. *)
Lemma invoke_keeps_verified ctx r c organization_id :
  verified_in c organization_id →
  verified_in (snd (invoke ctx r c)) organization_id.
Proof.
  intros (o & Ho & Hv). unfold verified_in.
  by_decorator ctx r c; [by exists o|]. destruct r; cbn [accepted] in Hd.
  - rewrite (invoke_register_individual _ Hd).
    destruct (individuals c !! _); by exists o.
  - rewrite (invoke_register_organization _ Hd).
    destruct (organizations c !! near.predecessor ctx) eqn:Hc; [by exists o|].
    exists o. simpl_contract. split; [|done].
    rewrite lookup_insert_ne; [done|]. congruence.
  - rewrite (invoke_verify_organization _ Hd).
    destruct (organizations c !! organization_id0) as [o'|] eqn:Hc; [|by exists o].
    simpl_contract. destruct (decide (organization_id0 = organization_id)) as [->|Hne].
    + eexists. rewrite lookup_insert_eq. split; [reflexivity|done].
    + exists o. by rewrite lookup_insert_ne.
  - rewrite (invoke_issue_certificate _ Hd).
    destruct (not_verified _); [by exists o|].
    destruct (individuals c !! _); by exists o.
  - rewrite (invoke_update_certificate_status _ Hd).
    destruct (certificates c !! _); [|by exists o].
    destruct (_ =? _); by exists o.
  - rewrite (invoke_revoke_certificate _ Hd).
    destruct (certificates c !! _); [|by exists o].
    destruct (_ =? _); by exists o.
  - rewrite (invoke_grant_reward _ Hd).
    destruct (individuals c !! _); by exists o.
  - destruct (invoke_process_payment ctx recipient_id amount c) as [out ->].
    by exists o.
Qed.

Lemma run_cons ctx r calls c :
  run ((ctx, r) :: calls) c
  = ((ctx, r, fst (invoke ctx r c)) :: fst (run calls (snd (invoke ctx r c))),
     snd (run calls (snd (invoke ctx r c)))).
Proof.
  cbn [run]. destruct (invoke ctx r c) as [o c']. cbn [fst snd].
  by destruct (run calls c').
Qed.

(** C5, as stated, fails: no organization ["academy"] is registered, yet
    [verify_organization] on it, called with a deposit of 5, does not fail
    with NotFound: the decorator rejects the call as not payable. *)
Lemma verify_organization_counterexample :
  organizations Scenario.registered !! "academy" = None
  ∧ ¬ fails_with NotFound (verify_organization "academy") (Scenario.ctx "bob" 5)
        Scenario.registered
  ∧ verify_organization "academy" (Scenario.ctx "bob" 5) (start Scenario.registered)
    = (Throw (Error "Function is not payable"), start Scenario.registered).
Proof.
  split; [vm_compute; reflexivity|]. split.
  - by apply rejected_fails_with_nothing.
  - by apply call_not_payable.
Qed.

(** C5 (amended): called with no deposit attached, [verify_organization]
    fails with NotFound when the organization is not registered, and
    otherwise completes and leaves the organization with [verified = true];
    called with a deposit it is rejected as not payable.  In no case is the
    caller looked at (every caller may verify every organization), and no
    sequence of calls to the contract makes a verified organization
    unverified. *)
Theorem verify_organization_spec ctx c organization_id :
  (near.deposit ctx = 0%N →
   organizations c !! organization_id = None →
   fails_with NotFound (verify_organization organization_id) ctx c)
  ∧ (near.deposit ctx = 0%N →
     ∀ o, organizations c !! organization_id = Some o →
       ∃ m',
         verify_organization organization_id ctx (start c) = (Normal (), m')
         ∧ organizations (this m') !! organization_id
           = Some {| Organization.id := Organization.id o;
                     Organization.name := Organization.name o;
                     Organization.contact_info := Organization.contact_info o;
                     Organization.verified := true;
                     Organization.registered_at := Organization.registered_at o |})
  ∧ (near.deposit ctx ≠ 0%N →
     verify_organization organization_id ctx (start c)
     = (Throw (Error "Function is not payable"), start c))
  ∧ (∀ caller,
       verify_organization organization_id (called_by caller ctx) (start c)
       = verify_organization organization_id ctx (start c))
  ∧ (∀ calls, verified_in c organization_id →
       verified_in (snd (run calls c)) organization_id).
Proof.
  split; [|split; [|split; [|split]]].
  - intros Hd H. exists (Error "Organization not found"). split; [|done].
    unfold_body. no_deposit Hd. by rewrite H.
  - intros Hd o H. unfold_body. no_deposit Hd. rewrite H.
    eexists. split; [reflexivity|].
    simpl_contract. by rewrite lookup_insert_eq.
  - intros Hd. by apply call_not_payable.
  - intros caller. unfold_body. destruct (0 <? _)%Z; [done|]. unfold_body.
    by destruct (organizations c !! _).
  - intros calls. revert c. induction calls as [|[ctx' r] calls IH]; intros c H.
    + exact H.
    + rewrite run_cons. cbn [snd]. apply IH. by apply invoke_keeps_verified.
Qed.

Lemma verify_organization_spec_witness :
  (organizations Scenario.registered !! "academy" = None
   ∧ fails_with NotFound (verify_organization "academy") (Scenario.ctx "bob" 0)
       Scenario.registered)
  ∧ (Organization.verified <$> organizations Scenario.registered !! "school" = Some true
     ∧ ∃ m', verify_organization "school" (Scenario.ctx "mallory" 0)
               (start Scenario.registered) = (Normal (), m'))
  ∧ verify_organization "school" (Scenario.ctx "mallory" 1) (start Scenario.registered)
    = (Throw (Error "Function is not payable"), start Scenario.registered)
  ∧ (verified_in Scenario.registered "school"
     ∧ verified_in (snd (run (Scenario.issue :: Scenario.grants) Scenario.registered))
         "school").
Proof.
  pose proof (verify_organization_spec (Scenario.ctx "bob" 0) Scenario.registered
                "academy") as (Hnone & _).
  pose proof (verify_organization_spec (Scenario.ctx "mallory" 0) Scenario.registered
                "school") as (_ & Hsome & _ & _ & Hrun).
  pose proof (verify_organization_spec (Scenario.ctx "mallory" 1) Scenario.registered
                "school") as (_ & _ & Hrejected & _).
  assert (H0 : organizations Scenario.registered !! "academy" = None)
    by (vm_compute; reflexivity).
  assert (H1 : verified_in Scenario.registered "school").
  { eexists. split; vm_compute; reflexivity. }
  split; [|split; [|split]].
  - split; [exact H0|exact (Hnone eq_refl H0)].
  - split; [vm_compute; reflexivity|].
    destruct H1 as (o & Ho & _). destruct (Hsome eq_refl o Ho) as (m' & Hm & _). eauto.
  - apply Hrejected. discriminate.
  - split; [exact H1|exact (Hrun _ H1)].
Defined.

(** ** Rewards: no caller check *)

(** C10: [grant_reward] does not look at the caller: for any two callers,
    the same arguments, deposit and clock and the same contract, the body
    completes the same way, with the same returned id, the same contract
    and the same log; any account, calling a method that is not payable
    the way it has to be called (no deposit attached), grants a registered
    learner the reward; and the amount stored by a completed call is always
    the string ["100"]. *)
Theorem grant_reward_ignores_caller ctx c learner_id milestone :
  (∀ caller1 caller2,
     grant_reward learner_id milestone (called_by caller1 ctx) (start c)
     = grant_reward learner_id milestone (called_by caller2 ctx) (start c)
     ∧ invoke (called_by caller1 ctx) (Grant_reward learner_id milestone) c
       = invoke (called_by caller2 ctx) (Grant_reward learner_id milestone) c)
  ∧ (near.deposit ctx = 0%N →
     is_Some (individuals c !! learner_id) →
     ∃ m',
       grant_reward learner_id milestone ctx (start c)
       = (Normal (reward_id (S (reward_counter c))), m')
       ∧ rewards (this m') !! reward_id (S (reward_counter c))
         = Some {| Reward.id := reward_id (S (reward_counter c));
                   Reward.learner_id := learner_id;
                   Reward.milestone := milestone;
                   Reward.amount := "100";
                   Reward.granted_at := near.clock ctx 0 |})
  ∧ (∀ id m',
       grant_reward learner_id milestone ctx (start c) = (Normal id, m') →
       Reward.amount <$> rewards (this m') !! id = Some "100").
Proof.
  split; [|split].
  - intros caller1 caller2. split.
    + unfold_body. destruct (0 <? _)%Z; [done|]. unfold_body.
      by destruct (individuals c !! _).
    + unfold_body. destruct (0 <? _)%Z; [done|]. unfold_body.
      by destruct (individuals c !! _).
  - intros Hd [i Hi]. unfold_body. no_deposit Hd. rewrite Hi. cbv beta iota.
    eexists. split; [reflexivity|]. simpl_contract. by rewrite lookup_insert_eq.
  - intros id m'. unfold_body. destruct (0 <? _)%Z; [done|]. unfold_body.
    destruct (individuals c !! _); [|done]. cbv beta iota.
    intros [= <- <-]. simpl_contract. by rewrite lookup_insert_eq.
Qed.

Lemma grant_reward_ignores_caller_witness :
  is_Some (individuals Scenario.registered !! "alice")
  ∧ individuals Scenario.registered !! "bob" = None
  ∧ organizations Scenario.registered !! "bob" = None
  ∧ ∃ m',
      grant_reward "alice" "first course" (Scenario.ctx "bob" 0)
        (start Scenario.registered) = (Normal "reward_1", m')
      ∧ Reward.amount <$> rewards (this m') !! "reward_1" = Some "100".
Proof.
  assert (Hi : is_Some (individuals Scenario.registered !! "alice"))
    by (vm_compute; eauto).
  split; [exact Hi|]. split; [vm_compute; reflexivity|].
  split; [vm_compute; reflexivity|].
  pose proof (grant_reward_ignores_caller (Scenario.ctx "bob" 0)
                Scenario.registered "alice" "first course") as (_ & Hgrant & Hamount).
  destruct (Hgrant eq_refl Hi) as (m' & Hm & _).
  change (reward_id (S (reward_counter Scenario.registered))) with "reward_1" in Hm.
  exists m'. split; [exact Hm|]. exact (Hamount _ _ Hm).
Defined.

(** ** Revocation is not terminal *)

(** C9, as stated, fails: after the issuer has revoked [cert_1], its later
    [update_certificate_status], made with a deposit of 5, does not
    succeed: the decorator rejects it as not payable, and the certificate
    stays revoked. *)
Lemma revoked_update_counterexample :
  invoke (Scenario.ctx "school" 0) (Revoke_certificate "cert_1" "fraud") Scenario.issued
  = (Normal undefined, Scenario.revoked)
  ∧ invoke (Scenario.ctx "school" 5) (Update_certificate_status "cert_1" "completed")
      Scenario.revoked
    = (Throw (Error "Function is not payable"), Scenario.revoked)
  ∧ ∀ c2, invoke (Scenario.ctx "school" 5)
            (Update_certificate_status "cert_1" "completed") Scenario.revoked
          ≠ (Normal undefined, c2).
Proof.
  assert (H : invoke (Scenario.ctx "school" 5)
                (Update_certificate_status "cert_1" "completed") Scenario.revoked
              = (Throw (Error "Function is not payable"), Scenario.revoked))
    by (by apply invoke_not_payable).
  split; [vm_compute; reflexivity|]. split; [exact H|].
  intros c2. rewrite H. discriminate.
Qed.

(** C9 (amended): after a successful [revoke_certificate], a later
    [update_certificate_status(certificate_id, s)] by the same caller (the
    bound issuer) with no deposit attached succeeds for every string [s] and
    leaves the certificate with status [s] and its metadata untouched;
    validation, which fails with Revoked after the revocation, returns the
    metadata again when [s] is not ["revoked"]. *)
Theorem revoked_is_not_terminal ctx certificate_id reason c c1 :
  invoke ctx (Revoke_certificate certificate_id reason) c = (Normal undefined, c1) →
  (∀ ctx', fails_with Revoked (validate_certificate certificate_id) ctx' c1)
  ∧ ∀ ctx2 s,
      near.predecessor ctx2 = near.predecessor ctx →
      near.deposit ctx2 = 0%N →
      ∃ c2 cert cert2,
        certificates c1 !! certificate_id = Some cert
        ∧ invoke ctx2 (Update_certificate_status certificate_id s) c1
          = (Normal undefined, c2)
        ∧ certificates c2 !! certificate_id = Some cert2
        ∧ Certificate.status cert2 = s
        ∧ Certificate.metadata cert2 = Certificate.metadata cert
        ∧ (s ≠ "revoked" →
           ∀ ctx', validate_certificate certificate_id ctx' (start c2)
                   = (Normal (Some (Certificate.metadata cert)), start c2)).
Proof.
  by_decorator ctx (Revoke_certificate certificate_id reason) c; [done|].
  rewrite (invoke_revoke_certificate _ Hd).
  destruct (certificates c !! certificate_id) as [cert0|] eqn:Hc; [|done].
  destruct (_ =? _) eqn:Hissuer; [|done].
  intros [= <-]. split.
  - intros ctx'. exists (Error "Certificate has been revoked"). split; [|done].
    unfold_body. by rewrite lookup_insert_eq.
  - intros ctx2 s Hcaller Hd2.
    rewrite (invoke_update_certificate_status _ Hd2). simpl_contract.
    rewrite lookup_insert_eq. simpl_contract. rewrite Hcaller, Hissuer.
    do 3 eexists. split; [reflexivity|]. split; [reflexivity|]. simpl_contract.
    rewrite lookup_insert_eq. split; [reflexivity|].
    split; [reflexivity|]. split; [reflexivity|].
    intros Hs ctx'. unfold_body. rewrite lookup_insert_eq. simpl_contract.
    apply String.eqb_neq in Hs. by rewrite Hs.
Qed.

Lemma revoked_is_not_terminal_witness :
  invoke (Scenario.ctx "school" 0) (Revoke_certificate "cert_1" "fraud") Scenario.issued
  = (Normal undefined, Scenario.revoked)
  ∧ fails_with Revoked (validate_certificate "cert_1") (Scenario.ctx "bob" 0)
      Scenario.revoked
  ∧ ∃ c2 cert,
      certificates Scenario.revoked !! "cert_1" = Some cert
      ∧ invoke (Scenario.ctx "school" 0)
          (Update_certificate_status "cert_1" "anything at all") Scenario.revoked
        = (Normal undefined, c2)
      ∧ Certificate.status <$> certificates c2 !! "cert_1" = Some "anything at all"
      ∧ validate_certificate "cert_1" (Scenario.ctx "bob" 0) (start c2)
        = (Normal (Some (Certificate.metadata cert)), start c2).
Proof.
  assert (H : invoke (Scenario.ctx "school" 0) (Revoke_certificate "cert_1" "fraud")
                Scenario.issued = (Normal undefined, Scenario.revoked))
    by (vm_compute; reflexivity).
  destruct (revoked_is_not_terminal _ _ _ _ _ H) as (Hrev & Hupd).
  split; [exact H|]. split; [apply Hrev|].
  destruct (Hupd (Scenario.ctx "school" 0) "anything at all" eq_refl eq_refl)
    as (c2 & cert & cert2 & Hc & Hi & Hc2 & Hs & _ & Hval).
  exists c2, cert. split; [exact Hc|]. split; [exact Hi|].
  split; [by rewrite Hc2; cbn; rewrite Hs|].
  apply Hval. discriminate.
Defined.

(** ** Payments *)

(** What [process_payment] does once the amount is a number, in one place. *)
Lemma process_payment_run ctx recipient_id amount a c :
  StringToBigInt amount = Some a →
  process_payment recipient_id amount ctx (start c) =
    if (Z.of_N (near.deposit ctx) <? a)%Z
    then (Throw (Error "Insufficient attached deposit"), start c)
    else if negb (truthy (individuals c !! recipient_id))
            && negb (truthy (organizations c !! recipient_id))
    then (Throw (Error "Recipient not found"), start c)
    else (Normal (),
          {| this := c;
             emitted :=
               [ near.PromiseBatchCreate recipient_id;
                 near.PromiseBatchActionTransfer 0 a;
                 near.PromiseReturn 0;
                 near.Log ("Payment processed: " +:+ near.predecessor ctx +:+ " -> "
                           +:+ recipient_id +:+ ", amount: " +:+ amount) ];
             ticks := 0 |}).
Proof.
  intros Ha. unfold_body. rewrite Ha.
  destruct (_ <? _)%Z; [done|].
  by destruct (negb _ && negb _).
Qed.

(** C4, second clause as stated, fails: with 5 attached, a payment of 10 to
    an account that is neither an individual nor an organization does not
    fail with NotFound (it fails with InsufficientFunds). *)
Lemma process_payment_not_found_counterexample :
  individuals constructor !! "nobody" = None
  ∧ organizations constructor !! "nobody" = None
  ∧ ¬ fails_with NotFound (process_payment "nobody" "10") (Scenario.ctx "bob" 5)
        constructor
  ∧ fails_with InsufficientFunds (process_payment "nobody" "10") (Scenario.ctx "bob" 5)
      constructor.
Proof.
  split; [reflexivity|]. split; [reflexivity|]. split.
  - intros (e & He & Hk).
    rewrite (process_payment_run _ _ _ 10%Z) in He by reflexivity.
    cbn in He. injection He as <-. discriminate.
  - exists (Error "Insufficient attached deposit"). split; [|reflexivity].
    by rewrite (process_payment_run _ _ _ 10%Z).
Qed.

(** An amount that is not an integer literal makes the body throw a
    SyntaxError before either check. *)
Lemma process_payment_not_a_number ctx recipient_id c :
  ∃ msg, process_payment recipient_id "1.5" ctx (start c)
         = (Throw (SyntaxError msg), start c).
Proof. by eexists. Qed.

(** C4 (amended): for an amount string that [BigInt] reads as an integer,
    [process_payment] fails with InsufficientFunds whenever the attached
    deposit is below the amount, whatever the recipient; when the deposit
    covers the amount it fails with NotFound if the recipient is neither a
    registered individual nor a registered organization; otherwise, the
    amount being non-negative, it creates a promise batch for the
    recipient, adds the transfer of the amount, returns the promise, logs,
    and completes without touching the contract. *)
Theorem process_payment_spec ctx recipient_id amount a c :
  StringToBigInt amount = Some a →
  ((Z.of_N (near.deposit ctx) < a)%Z →
   fails_with InsufficientFunds (process_payment recipient_id amount) ctx c)
  ∧ ((a ≤ Z.of_N (near.deposit ctx))%Z →
     individuals c !! recipient_id = None →
     organizations c !! recipient_id = None →
     fails_with NotFound (process_payment recipient_id amount) ctx c)
  ∧ ((0 ≤ a ≤ Z.of_N (near.deposit ctx))%Z →
     is_Some (individuals c !! recipient_id)
     ∨ is_Some (organizations c !! recipient_id) →
     ∃ m',
       process_payment recipient_id amount ctx (start c) = (Normal (), m')
       ∧ this m' = c
       ∧ emitted m'
         = [ near.PromiseBatchCreate recipient_id;
             near.PromiseBatchActionTransfer 0 a;
             near.PromiseReturn 0;
             near.Log ("Payment processed: " +:+ near.predecessor ctx +:+ " -> "
                       +:+ recipient_id +:+ ", amount: " +:+ amount) ]).
Proof.
  intros Ha. unfold fails_with. rewrite (process_payment_run _ _ _ _ _ Ha).
  split; [|split].
  - intros Hlt. apply Z.ltb_lt in Hlt. rewrite Hlt.
    exists (Error "Insufficient attached deposit"). by split.
  - intros Hle Hi Ho. apply Z.ltb_ge in Hle. rewrite Hle, Hi, Ho.
    exists (Error "Recipient not found"). by split.
  - intros [_ Hle] Hreg. apply Z.ltb_ge in Hle. rewrite Hle.
    assert (negb (truthy (individuals c !! recipient_id))
            && negb (truthy (organizations c !! recipient_id)) = false) as ->.
    { destruct Hreg as [[i ->]|[o ->]]; [done|]. by rewrite andb_false_r. }
    eexists. split; [reflexivity|]. by split.
Qed.

Lemma process_payment_spec_witness :
  StringToBigInt "10" = Some 10%Z
  ∧ fails_with InsufficientFunds (process_payment "nobody" "10") (Scenario.ctx "bob" 5)
      Scenario.registered
  ∧ fails_with NotFound (process_payment "nobody" "10") (Scenario.ctx "bob" 10)
      Scenario.registered
  ∧ ∃ m', process_payment "alice" "10" (Scenario.ctx "bob" 12)
            (start Scenario.registered) = (Normal (), m')
          ∧ this m' = Scenario.registered.
Proof.
  assert (Ha : StringToBigInt "10" = Some 10%Z) by reflexivity.
  split; [exact Ha|]. split; [|split].
  - apply (proj1 (process_payment_spec (Scenario.ctx "bob" 5) "nobody" "10" 10
                    Scenario.registered Ha)). reflexivity.
  - apply (proj1 (proj2 (process_payment_spec (Scenario.ctx "bob" 10) "nobody" "10" 10
                           Scenario.registered Ha))); [discriminate|reflexivity..].
  - destruct (proj2 (proj2 (process_payment_spec (Scenario.ctx "bob" 12) "alice" "10" 10
                              Scenario.registered Ha)))
      as (m' & Hm & Hthis & _).
    + split; discriminate.
    + left. vm_compute. eauto.
    + eauto.
Defined.

(** ** Certificate identifiers *)

Lemma cert_id_inj n k : cert_id n = cert_id k → n = k.
Proof.
  unfold cert_id. intros H. apply (inj pretty).
  by apply (inj (String.app "cert_")).
Qed.

Lemma reward_id_inj n k : reward_id n = reward_id k → n = k.
Proof.
  unfold reward_id. intros H. apply (inj pretty).
  by apply (inj (String.app "reward_")).
Qed.

(** One call either hands out the id numbered one above the counter and
    advances the counter by one, or leaves the counter alone. *)
Lemma invoke_issued ctx r c :
  match issued_id (ctx, r, fst (invoke ctx r c)) with
  | Some id =>
      id = cert_id (S (certificate_counter c))
      ∧ certificate_counter (snd (invoke ctx r c)) = S (certificate_counter c)
  | None => certificate_counter (snd (invoke ctx r c)) = certificate_counter c
  end.
Proof.
  by_decorator ctx r c; [by destruct r|]. destruct r; cbn [accepted] in Hd.
  - rewrite (invoke_register_individual _ Hd). by destruct (individuals c !! _).
  - rewrite (invoke_register_organization _ Hd). by destruct (organizations c !! _).
  - rewrite (invoke_verify_organization _ Hd). by destruct (organizations c !! _).
  - rewrite (invoke_issue_certificate _ Hd). destruct (not_verified _); [done|].
    by destruct (individuals c !! _).
  - rewrite (invoke_update_certificate_status _ Hd).
    destruct (certificates c !! _); [|done]. by destruct (_ =? _).
  - rewrite (invoke_revoke_certificate _ Hd).
    destruct (certificates c !! _); [|done]. by destruct (_ =? _).
  - rewrite (invoke_grant_reward _ Hd). by destruct (individuals c !! _).
  - by destruct (invoke_process_payment ctx recipient_id amount c) as [out ->].
Qed.

Lemma invoke_counter_mono ctx r c :
  (certificate_counter c ≤ certificate_counter (snd (invoke ctx r c)))%nat.
Proof.
  pose proof (invoke_issued ctx r c) as H.
  destruct (issued_id _); [destruct H as [_ ->]|rewrite H]; lia.
Qed.

Lemma run_counter_mono calls c :
  (certificate_counter c ≤ certificate_counter (snd (run calls c)))%nat.
Proof.
  revert c. induction calls as [|[ctx r] calls IH]; intros c; [done|].
  rewrite run_cons. cbn [snd]. etrans; [apply (invoke_counter_mono ctx r)|apply IH].
Qed.

(** The ids handed out during a sequence of calls are numbered above the
    counter it started from and up to the counter it ends with. *)
Lemma run_issued_ids calls c id :
  id ∈ issued_ids (fst (run calls c)) →
  ∃ k, id = cert_id k
       ∧ (certificate_counter c < k ≤ certificate_counter (snd (run calls c)))%nat.
Proof.
  revert c. induction calls as [|[ctx r] calls IH]; intros c.
  - cbn. by intros ?%elem_of_nil.
  - rewrite run_cons. cbn [fst snd]. unfold issued_ids. cbn [omap list_omap].
    fold (issued_ids (fst (run calls (snd (invoke ctx r c))))).
    pose proof (invoke_issued ctx r c) as Hstep.
    pose proof (run_counter_mono calls (snd (invoke ctx r c))) as Hmono.
    destruct (issued_id _) as [id'|].
    + destruct Hstep as [-> Hc]. intros [->|Hin]%elem_of_cons.
      * eexists. split; [reflexivity|]. lia.
      * destruct (IH _ Hin) as (k & -> & Hk). exists k. split; [done|]. lia.
    + intros Hin. destruct (IH _ Hin) as (k & -> & Hk). exists k. split; [done|]. lia.
Qed.

Lemma get_certificate_history_run certificate_id ctx c :
  get_certificate_history certificate_id ctx (start c)
  = (Normal (or_empty (certificate_history c !! certificate_id)), start c).
Proof. reflexivity. Qed.

Lemma view_get_certificate_history certificate_id ctx c :
  view ctx (get_certificate_history certificate_id) c
  = Normal (or_empty (certificate_history c !! certificate_id)).
Proof. reflexivity. Qed.

(** C1, as stated, fails: [school] is a verified organization and [alice]
    a registered individual, yet [issue_certificate], called with a deposit
    of 5, returns no certificate id, and called with that deposit by
    [alice], who is no organization, it does not fail with Unauthorized:
    the decorator rejects both calls as not payable. *)
Lemma issue_certificate_counterexample :
  verified_in Scenario.issued "school"
  ∧ is_Some (individuals Scenario.issued !! "alice")
  ∧ issue_certificate "alice" "course2" Scenario.payload (Scenario.ctx "school" 5)
      (start Scenario.issued)
    = (Throw (Error "Function is not payable"), start Scenario.issued)
  ∧ ¬ verified_in Scenario.issued "alice"
  ∧ ¬ fails_with Unauthorized (issue_certificate "alice" "course2" Scenario.payload)
        (Scenario.ctx "alice" 5) Scenario.issued.
Proof.
  split; [eexists; split; vm_compute; reflexivity|].
  split; [vm_compute; eauto|].
  split; [by apply call_not_payable|].
  split; [intros (o & Ho & _); vm_compute in Ho; discriminate|].
  by apply rejected_fails_with_nothing.
Qed.

(** C1 (amended): in the state reached by any sequence of calls from any
    state, [issue_certificate] called with no deposit attached fails with
    Unauthorized unless the caller is a registered organization with
    [verified = true]; for such a caller it fails with NotFound if the
    learner is not a registered individual; otherwise it returns [cert_<n>]
    with [n] above the number of every id issued by the calls before it,
    the certificate stored under that id has status ["pending"], and
    [get_certificate_history] on that id returns exactly one entry, whose
    action is ["issued"].  Called with a deposit, it is rejected as not
    payable and writes nothing. *)
Theorem issue_certificate_spec calls c0 ctx learner_id course_id metadata :
  let c := snd (run calls c0) in
  (near.deposit ctx = 0%N →
   ¬ verified_in c (near.predecessor ctx) →
   fails_with Unauthorized (issue_certificate learner_id course_id metadata) ctx c)
  ∧ (near.deposit ctx = 0%N →
     verified_in c (near.predecessor ctx) →
     individuals c !! learner_id = None →
     fails_with NotFound (issue_certificate learner_id course_id metadata) ctx c)
  ∧ (near.deposit ctx = 0%N →
     verified_in c (near.predecessor ctx) →
     is_Some (individuals c !! learner_id) →
     ∃ n m',
       issue_certificate learner_id course_id metadata ctx (start c)
       = (Normal (cert_id n), m')
       ∧ (∀ id, id ∈ issued_ids (fst (run calls c0)) →
            ∃ k, id = cert_id k ∧ (k < n)%nat)
       ∧ (∃ cert, certificates (this m') !! cert_id n = Some cert
                  ∧ Certificate.status cert = "pending")
       ∧ ∃ entry,
           (∀ ctx', view ctx' (get_certificate_history (cert_id n)) (this m')
                    = Normal [entry])
           ∧ UpdateLog.action entry = "issued")
  ∧ (near.deposit ctx ≠ 0%N →
     issue_certificate learner_id course_id metadata ctx (start c)
     = (Throw (Error "Function is not payable"), start c)).
Proof.
  intros c. split; [|split; [|split]].
  - intros Hd Hv%not_verified_true.
    exists (Error "Only verified organizations can issue certificates").
    split; [|done]. unfold_body. no_deposit Hd. by rewrite Hv.
  - intros Hd Hv%not_verified_false Hi.
    exists (Error "Learner not found"). split; [|done].
    unfold_body. no_deposit Hd. by rewrite Hv, Hi.
  - intros Hd Hv%not_verified_false Hi.
    destruct (issue_certificate_ok ctx learner_id course_id metadata c Hd Hv Hi)
      as (m' & Hrun & _ & Hcert & Hhist).
    exists (S (certificate_counter c)), m'. split; [exact Hrun|]. split; [|split].
    + intros id Hin. destruct (run_issued_ids _ _ _ Hin) as (k & -> & Hk).
      exists k. split; [done|]. subst c. lia.
    + eexists. split; [exact Hcert|done].
    + eexists. split.
      * intros ctx'. by rewrite view_get_certificate_history, Hhist.
      * reflexivity.
  - intros Hd. by apply call_not_payable.
Qed.

Lemma issue_certificate_spec_witness :
  (¬ verified_in Scenario.issued "alice"
   ∧ fails_with Unauthorized (issue_certificate "alice" "course2" Scenario.payload)
       (Scenario.ctx "alice" 0) Scenario.issued)
  ∧ (verified_in Scenario.issued "school"
     ∧ individuals Scenario.issued !! "carol" = None
     ∧ fails_with NotFound (issue_certificate "carol" "course2" Scenario.payload)
         (Scenario.ctx "school" 0) Scenario.issued)
  ∧ (is_Some (individuals Scenario.issued !! "alice")
     ∧ issued_ids (fst (run (Scenario.setup ++ [Scenario.issue]) constructor))
       = ["cert_1"]
     ∧ ∃ m', issue_certificate "alice" "course2" Scenario.payload
               (Scenario.ctx "school" 0) (start Scenario.issued)
             = (Normal "cert_2", m'))
  ∧ issue_certificate "alice" "course2" Scenario.payload (Scenario.ctx "school" 3)
      (start Scenario.issued)
    = (Throw (Error "Function is not payable"), start Scenario.issued).
Proof.
  pose proof (issue_certificate_spec (Scenario.setup ++ [Scenario.issue]) constructor)
    as Hspec.
  fold Scenario.issued in Hspec.
  assert (Hschool : verified_in Scenario.issued "school").
  { eexists. split; vm_compute; reflexivity. }
  assert (Halice : ¬ verified_in Scenario.issued "alice").
  { intros (o & Ho & _). vm_compute in Ho. discriminate. }
  split; [|split; [|split]].
  - split; [exact Halice|].
    exact (proj1 (Hspec (Scenario.ctx "alice" 0) "alice" "course2" Scenario.payload)
             eq_refl Halice).
  - split; [exact Hschool|]. split; [vm_compute; reflexivity|].
    exact (proj1 (proj2 (Hspec (Scenario.ctx "school" 0) "carol" "course2"
                           Scenario.payload)) eq_refl Hschool eq_refl).
  - assert (Hi : is_Some (individuals Scenario.issued !! "alice"))
      by (vm_compute; eauto).
    split; [exact Hi|]. split; [vm_compute; reflexivity|].
    destruct (proj1 (proj2 (proj2 (Hspec (Scenario.ctx "school" 0) "alice" "course2"
                                     Scenario.payload))) eq_refl Hschool Hi)
      as (n & m' & Hrun & _).
    exists m'. rewrite Hrun. f_equal. f_equal.
    destruct (issue_certificate_returns _ _ _ _ _ _ _ Hrun) as (_ & _ & _ & ->).
    vm_compute. reflexivity.
  - apply (proj2 (proj2 (proj2 (Hspec (Scenario.ctx "school" 3) "alice" "course2"
                                  Scenario.payload)))).
    discriminate.
Defined.

(** ** Certificate history *)

Lemma omap_log_of_mutation certificate_id e :
  mutates certificate_id e = true →
  ∃ l, log_of e = Some l.
Proof.
  destruct e as [[ctx r] o]. destruct r; cbn; try done; eauto.
Qed.

Lemma omap_filter_cons {A B} (f : A → option B) (p : A → bool) x l :
  omap f (List.filter p (x :: l))
  = omap f (List.filter p [x]) ++ omap f (List.filter p l).
Proof.
  cbn [List.filter]. destruct (p x); [|done].
  cbn [omap list_omap]. by destruct (f x).
Qed.

Lemma filter_mutates_length certificate_id entries :
  length (omap log_of (List.filter (mutates certificate_id) entries))
  = length (List.filter (mutates certificate_id) entries).
Proof.
  induction entries as [|e entries IH]; [done|]. cbn [List.filter].
  destruct (mutates certificate_id e) eqn:He; [|done].
  destruct (omap_log_of_mutation _ _ He) as [l Hl].
  cbn [omap list_omap]. rewrite Hl. cbn [length]. by rewrite IH.
Qed.

(** One call, seen from a certificate that is stored, numbered at or below
    the counter and bound to an issuer: the certificate stays stored and
    bound to the same issuer, its history grows by the line of the call
    when the call is a successful update or revocation of it and stays as it
    is otherwise, and a call that targets it is answered by the issuer
    check. *)
Lemma invoke_history ctx r c k issuer :
  (k ≤ certificate_counter c)%nat →
  bound_to c (cert_id k) issuer →
  bound_to (snd (invoke ctx r c)) (cert_id k) issuer
  ∧ or_empty (certificate_history (snd (invoke ctx r c)) !! cert_id k)
    = or_empty (certificate_history c !! cert_id k)
      ++ omap log_of (List.filter (mutates (cert_id k)) [(ctx, r, fst (invoke ctx r c))])
  ∧ (targets (cert_id k) (ctx, r, fst (invoke ctx r c)) = true →
     answered issuer (ctx, r, fst (invoke ctx r c))).
Proof.
  intros Hk (cert & Hcert & Hissuer). unfold bound_to, answered.
  assert (Hsame : (∃ cert0, certificates c !! cert_id k = Some cert0
                    ∧ CertificateMetadata.issuer_org_id (Certificate.metadata cert0)
                      = issuer)) by eauto.
  by_decorator ctx r c.
  { apply N.eqb_neq in Hpos. rewrite Hpos.
    destruct r; try discriminate Hpay; cbn; rewrite app_nil_r; done. }
  destruct r; cbn [accepted] in Hd; try rewrite Hd; try change (0 =? 0)%N with true;
    cbv iota.
  - rewrite (invoke_register_individual _ Hd).
    destruct (individuals c !! _); cbn; rewrite app_nil_r; done.
  - rewrite (invoke_register_organization _ Hd).
    destruct (organizations c !! _); cbn; rewrite app_nil_r; done.
  - rewrite (invoke_verify_organization _ Hd).
    destruct (organizations c !! _); cbn; rewrite app_nil_r; done.
  - rewrite (invoke_issue_certificate _ Hd).
    destruct (not_verified _); [cbn; rewrite app_nil_r; done|].
    destruct (individuals c !! _); [|cbn; rewrite app_nil_r; done].
    assert (cert_id (S (certificate_counter c)) ≠ cert_id k) as Hne.
    { intros ?%cert_id_inj. lia. }
    cbn. rewrite !lookup_insert_ne by done. rewrite app_nil_r. done.
  - rewrite (invoke_update_certificate_status _ Hd).
    destruct (String.eqb_spec certificate_id (cert_id k)) as [->|Hne].
    + rewrite Hcert, Hissuer.
      destruct (issuer =? near.predecessor ctx) eqn:Hcaller.
      * cbn. rewrite String.eqb_refl, !lookup_insert_eq. cbn.
        split; [eauto|done].
      * cbn. rewrite app_nil_r. split; [done|]. split; [done|].
        intros _. eexists. split; [reflexivity|done].
    + apply String.eqb_neq in Hne as Hne'.
      destruct (certificates c !! certificate_id) as [cert'|];
        [|cbn; rewrite Hne', app_nil_r; done].
      destruct (_ =? near.predecessor ctx);
        [|cbn; rewrite Hne', app_nil_r; done].
      cbn. rewrite Hne'. cbn.
      rewrite !lookup_insert_ne by done. rewrite app_nil_r. done.
  - rewrite (invoke_revoke_certificate _ Hd).
    destruct (String.eqb_spec certificate_id (cert_id k)) as [->|Hne].
    + rewrite Hcert, Hissuer.
      destruct (issuer =? near.predecessor ctx) eqn:Hcaller.
      * cbn. rewrite String.eqb_refl, !lookup_insert_eq. cbn.
        split; [eauto|done].
      * cbn. rewrite app_nil_r. split; [done|]. split; [done|].
        intros _. eexists. split; [reflexivity|done].
    + apply String.eqb_neq in Hne as Hne'.
      destruct (certificates c !! certificate_id) as [cert'|];
        [|cbn; rewrite Hne', app_nil_r; done].
      destruct (_ =? near.predecessor ctx);
        [|cbn; rewrite Hne', app_nil_r; done].
      cbn. rewrite Hne'. cbn.
      rewrite !lookup_insert_ne by done. rewrite app_nil_r. done.
  - rewrite (invoke_grant_reward _ Hd).
    destruct (individuals c !! _); cbn; rewrite app_nil_r; done.
  - destruct (invoke_process_payment ctx recipient_id amount c) as [out ->].
    cbn. rewrite app_nil_r. done.
Qed.

(** The same over a sequence of calls. *)
Lemma run_history calls c k issuer :
  (k ≤ certificate_counter c)%nat →
  bound_to c (cert_id k) issuer →
  bound_to (snd (run calls c)) (cert_id k) issuer
  ∧ or_empty (certificate_history (snd (run calls c)) !! cert_id k)
    = or_empty (certificate_history c !! cert_id k)
      ++ omap log_of (List.filter (mutates (cert_id k)) (fst (run calls c)))
  ∧ Forall (λ e, targets (cert_id k) e = true → answered issuer e) (fst (run calls c)).
Proof.
  revert c. induction calls as [|[ctx r] calls IH]; intros c Hk Hb.
  - cbn. rewrite app_nil_r. eauto.
  - rewrite run_cons. cbn [fst snd].
    destruct (invoke_history ctx r c k issuer Hk Hb) as (Hb' & Hh & Ha).
    destruct (IH (snd (invoke ctx r c))) as (Hb'' & Hh' & Ha'); [|done|].
    { etrans; [exact Hk|apply invoke_counter_mono]. }
    split; [done|]. split; [|by constructor].
    rewrite Hh', Hh, <- app_assoc.
    apply (f_equal (app (or_empty _))). symmetry. apply omap_filter_cons.
Qed.

(** A call without deposit by an account other than the bound issuer
    throws before it writes anything. *)
Lemma non_issuer_rejected c certificate_id issuer ctx :
  near.deposit ctx = 0%N →
  bound_to c certificate_id issuer →
  near.predecessor ctx ≠ issuer →
  (∀ new_status,
     fails_with Unauthorized (update_certificate_status certificate_id new_status) ctx c)
  ∧ (∀ reason,
       fails_with Unauthorized (revoke_certificate certificate_id reason) ctx c).
Proof.
  intros Hd (cert & Hcert & Hissuer) Hne.
  assert ((CertificateMetadata.issuer_org_id (Certificate.metadata cert)
           =? near.predecessor ctx) = false) as Hcheck.
  { apply String.eqb_neq. congruence. }
  split.
  - intros new_status. exists (Error "Unauthorized to update this certificate").
    split; [|done]. unfold_body. no_deposit Hd. by rewrite Hcert, Hcheck.
  - intros reason. exists (Error "Unauthorized to revoke this certificate").
    split; [|done]. unfold_body. no_deposit Hd. by rewrite Hcert, Hcheck.
Qed.

(** C3, as stated, fails: [bob] is not the issuer of [cert_1], yet his
    [update_certificate_status] on it, called with a deposit of 5, does not
    fail with Unauthorized: the decorator rejects the call as not payable
    (nothing is appended all the same). *)
Lemma non_issuer_counterexample :
  bound_to Scenario.issued "cert_1" "school"
  ∧ ¬ fails_with Unauthorized (update_certificate_status "cert_1" "completed")
        (Scenario.ctx "bob" 5) Scenario.issued
  ∧ invoke (Scenario.ctx "bob" 5) (Update_certificate_status "cert_1" "completed")
      Scenario.issued
    = (Throw (Error "Function is not payable"), Scenario.issued).
Proof.
  split; [eexists; split; vm_compute; reflexivity|]. split.
  - by apply rejected_fails_with_nothing.
  - by apply invoke_not_payable.
Qed.

(** C3 (amended): take a certificate just issued and any sequence of calls
    made after its issuance.  Its history is the issuance entry followed by
    one line per successful [update_certificate_status] /
    [revoke_certificate] on it, in call order, so its length is 1 + the
    number of those calls; every such call on it with no deposit attached
    completes when made by the bound issuer and fails with Unauthorized
    when made by any other account, and every such call with a deposit is
    rejected as not payable; a failed call has written nothing. *)
Theorem history_counts_mutations ctx0 learner_id course_id metadata c id c1 calls :
  invoke ctx0 (Issue_certificate learner_id course_id metadata) c
  = (Normal (str id), c1) →
  ∃ first,
    UpdateLog.action first = "issued"
    ∧ (∀ ctx, view ctx (get_certificate_history id) c1 = Normal [first])
    ∧ (∀ ctx, ∃ h,
         view ctx (get_certificate_history id) (snd (run calls c1)) = Normal h
         ∧ h = first :: omap log_of (List.filter (mutates id) (fst (run calls c1)))
         ∧ length h = 1 + length (List.filter (mutates id) (fst (run calls c1))))
    ∧ Forall (λ e, targets id e = true → answered (near.predecessor ctx0) e)
        (fst (run calls c1))
    ∧ (∀ ctx, near.deposit ctx = 0%N →
         near.predecessor ctx ≠ near.predecessor ctx0 →
         (∀ new_status,
            fails_with Unauthorized (update_certificate_status id new_status) ctx
              (snd (run calls c1)))
         ∧ (∀ reason,
              fails_with Unauthorized (revoke_certificate id reason) ctx
                (snd (run calls c1))))
    ∧ (∀ ctx, near.deposit ctx ≠ 0%N →
         (∀ new_status,
            update_certificate_status id new_status ctx (start (snd (run calls c1)))
            = (Throw (Error "Function is not payable"), start (snd (run calls c1))))
         ∧ (∀ reason,
              revoke_certificate id reason ctx (start (snd (run calls c1)))
              = (Throw (Error "Function is not payable"),
                 start (snd (run calls c1))))).
Proof.
  by_decorator ctx0 (Issue_certificate learner_id course_id metadata) c; [done|].
  rewrite (invoke_issue_certificate _ Hd).
  destruct (not_verified _); [done|].
  destruct (individuals c !! learner_id); [|done].
  intros [= <- <-].
  set (k := S (certificate_counter c)).
  set (c1 := mkContract _ _ _ _ _ _ _).
  assert (Hb : bound_to c1 (cert_id k) (near.predecessor ctx0)).
  { eexists. subst c1. simpl_contract. rewrite lookup_insert_eq. by split. }
  assert (Hh : certificate_history c1 !! cert_id k
               = Some [ {| UpdateLog.timestamp := near.clock ctx0 2;
                           UpdateLog.action := "issued";
                           UpdateLog.reason := "Certificate issued";
                           UpdateLog.by_account := near.predecessor ctx0 |} ]).
  { subst c1. simpl_contract. by rewrite lookup_insert_eq. }
  destruct (run_history calls c1 k (near.predecessor ctx0)) as (Hb' & Hh' & Ha);
    [done|done|].
  rewrite Hh in Hh'. cbn [or_empty] in Hh'.
  exists {| UpdateLog.timestamp := near.clock ctx0 2;
            UpdateLog.action := "issued";
            UpdateLog.reason := "Certificate issued";
            UpdateLog.by_account := near.predecessor ctx0 |}.
  split; [|split; [|split; [|split; [|split]]]].
  - reflexivity.
  - intros ctx. by rewrite view_get_certificate_history, Hh.
  - intros ctx. eexists. split; [|split].
    + rewrite view_get_certificate_history, Hh'. reflexivity.
    + reflexivity.
    + cbn. by rewrite filter_mutates_length.
  - exact Ha.
  - intros ctx Hdc Hne. by apply (non_issuer_rejected _ _ _ _ Hdc Hb').
  - intros ctx Hdc. split; intros; by apply call_not_payable.
Qed.

Lemma history_counts_mutations_witness :
  invoke (Scenario.ctx "school" 0) (Issue_certificate "alice" "course1" Scenario.payload)
    Scenario.registered
  = (Normal (str "cert_1"), Scenario.issued)
  ∧ List.map snd (fst (run Scenario.mutations Scenario.issued))
    = [ Normal undefined;
        Throw (Error "Unauthorized to revoke this certificate");
        Normal (str "reward_1");
        Normal undefined;
        Throw (Error "Unauthorized to update this certificate") ]
  ∧ ∃ h,
      view (Scenario.ctx "bob" 0) (get_certificate_history "cert_1")
        (snd (run Scenario.mutations Scenario.issued)) = Normal h
      ∧ UpdateLog.action <$> h = ["issued"; "status_updated"; "revoked"]
      ∧ length h = 3
      ∧ fails_with Unauthorized (update_certificate_status "cert_1" "completed")
          (Scenario.ctx "alice" 0) (snd (run Scenario.mutations Scenario.issued))
      ∧ revoke_certificate "cert_1" "again" (Scenario.ctx "school" 1)
          (start (snd (run Scenario.mutations Scenario.issued)))
        = (Throw (Error "Function is not payable"),
           start (snd (run Scenario.mutations Scenario.issued))).
Proof.
  assert (H : invoke (Scenario.ctx "school" 0)
                (Issue_certificate "alice" "course1" Scenario.payload)
                Scenario.registered
              = (Normal (str "cert_1"), Scenario.issued))
    by (vm_compute; reflexivity).
  split; [exact H|]. split; [vm_compute; reflexivity|].
  destruct (history_counts_mutations _ _ _ _ _ _ _ Scenario.mutations H)
    as (first & Hfirst & H1 & H2 & _ & Hother & Hpayable).
  destruct (H2 (Scenario.ctx "bob" 0)) as (h & Hview & -> & Hlen).
  exists (first :: omap log_of
            (List.filter (mutates "cert_1") (fst (run Scenario.mutations Scenario.issued)))).
  split; [exact Hview|]. split; [|split; [exact Hlen|split]].
  - cbn [fmap list_fmap]. rewrite Hfirst. vm_compute. reflexivity.
  - destruct (Hother (Scenario.ctx "alice" 0)) as [Hupdate _].
    + reflexivity.
    + vm_compute. discriminate.
    + exact (Hupdate "completed").
  - destruct (Hpayable (Scenario.ctx "school" 1)) as [_ Hrevoke].
    + discriminate.
    + exact (Hrevoke "again").
Defined.

(** ** Rewards *)

Lemma granted_app entries1 entries2 :
  granted (entries1 ++ entries2) = granted entries1 ++ granted entries2.
Proof. apply omap_app. Qed.

(** One call extends the ledger by the reward it grants, if any. *)
Lemma invoke_ledger ctx r c g :
  ledger c g →
  ledger (snd (invoke ctx r c)) (g ++ granted [(ctx, r, fst (invoke ctx r c))]).
Proof.
  intros [Hn Hg]. by_decorator ctx r c.
  { destruct r; cbn; rewrite app_nil_r; by split. }
  destruct r; cbn [accepted] in Hd.
  - rewrite (invoke_register_individual _ Hd).
    destruct (individuals c !! _); cbn; rewrite app_nil_r; (split; [exact Hn|exact Hg]).
  - rewrite (invoke_register_organization _ Hd).
    destruct (organizations c !! _); cbn; rewrite app_nil_r; (split; [exact Hn|exact Hg]).
  - rewrite (invoke_verify_organization _ Hd).
    destruct (organizations c !! _); cbn; rewrite app_nil_r; (split; [exact Hn|exact Hg]).
  - rewrite (invoke_issue_certificate _ Hd). destruct (not_verified _).
    + cbn; rewrite app_nil_r; (split; [exact Hn|exact Hg]).
    + destruct (individuals c !! _); cbn; rewrite app_nil_r; (split; [exact Hn|exact Hg]).
  - rewrite (invoke_update_certificate_status _ Hd).
    destruct (certificates c !! _); [|cbn; rewrite app_nil_r; (split; [exact Hn|exact Hg])].
    destruct (_ =? _); cbn; rewrite app_nil_r; (split; [exact Hn|exact Hg]).
  - rewrite (invoke_revoke_certificate _ Hd).
    destruct (certificates c !! _); [|cbn; rewrite app_nil_r; (split; [exact Hn|exact Hg])].
    destruct (_ =? _); cbn; rewrite app_nil_r; (split; [exact Hn|exact Hg]).
  - rewrite (invoke_grant_reward _ Hd).
    destruct (individuals c !! _); [|cbn; rewrite app_nil_r; (split; [exact Hn|exact Hg])].
    cbn. split.
    + cbn. rewrite length_app. cbn. lia.
    + intros i r Hi. cbn. rewrite Hn. rewrite Hn in Hi.
      destruct (decide (i = length g)) as [->|Hne].
      * rewrite lookup_insert_eq.
        rewrite lookup_app_r, Nat.sub_diag in Hi by done.
        cbn in Hi. injection Hi as <-. by split.
      * assert (i < length g)%nat as Hlt.
        { apply lookup_lt_Some in Hi. rewrite length_app in Hi. cbn in Hi. lia. }
        rewrite lookup_app_l in Hi by done.
        rewrite lookup_insert_ne; [by apply Hg|].
        intros ?%reward_id_inj. lia.
  - destruct (invoke_process_payment ctx recipient_id amount c) as [out ->].
    cbn; rewrite app_nil_r; (split; [exact Hn|exact Hg]).
Qed.

Lemma run_ledger calls c g :
  ledger c g →
  ledger (snd (run calls c)) (g ++ granted (fst (run calls c))).
Proof.
  revert c g. induction calls as [|[ctx r] calls IH]; intros c g Hl.
  - cbn. by rewrite app_nil_r.
  - rewrite run_cons. cbn [fst snd].
    change ((ctx, r, fst (invoke ctx r c)) :: ?l)
      with ([(ctx, r, fst (invoke ctx r c))] ++ l).
    rewrite granted_app, app_assoc. apply IH. by apply invoke_ledger.
Qed.

Lemma ledger_constructor : ledger constructor [].
Proof. split; [done|]. intros i r Hi. by rewrite lookup_nil in Hi. Qed.

(** The loop of [list_rewards], started at index [j + 1] with as many
    iterations left as there are rewards from there on, appends the
    matching ones among them and changes nothing. *)
Lemma list_rewards_loop_run learner_id ctx c g :
  ledger c g →
  ∀ remaining j acc,
    j + remaining = length g →
    list_rewards_loop learner_id remaining (S j) acc ctx (start c)
    = (Normal (acc ++ List.filter (granted_to learner_id) (drop j g)), start c).
Proof.
  intros [_ Hg]. induction remaining as [|remaining IH]; intros j acc Hlen.
  - rewrite drop_ge by lia. cbn. by rewrite app_nil_r.
  - destruct (lookup_lt_is_Some_2 g j) as [r Hr]; [lia|].
    destruct (Hg j r Hr) as [Hstored _].
    rewrite (drop_S _ _ _ Hr). cbn [List.filter].
    change (list_rewards_loop learner_id (S remaining) (S j) acc ctx (start c))
      with (list_rewards_loop learner_id remaining (S (S j))
              match rewards c !! reward_id (S j) with
              | Some r => if Reward.learner_id r =? learner_id then acc ++ [r] else acc
              | None => acc
              end ctx (start c)).
    rewrite Hstored, IH by lia. unfold granted_to at 2.
    destruct (Reward.learner_id r =? learner_id); [|done].
    by rewrite <- app_assoc.
Qed.

Lemma ledger_ids c g :
  ledger c g → Reward.id <$> g = reward_id <$> seq 1 (length g).
Proof.
  intros [_ Hg]. apply list_eq. intros i.
  rewrite !list_lookup_fmap. destruct (g !! i) as [r|] eqn:Hr.
  - destruct (Hg i r Hr) as [_ Hid]. apply lookup_lt_Some in Hr as Hlt.
    rewrite lookup_seq_lt by done. cbn. by rewrite Hid.
  - apply lookup_ge_None in Hr. by rewrite lookup_seq_ge.
Qed.

Lemma filter_granted_to_none learner_id (g : list Reward.t) :
  (∀ r, r ∈ g → Reward.learner_id r ≠ learner_id) →
  List.filter (granted_to learner_id) g = [].
Proof.
  induction g as [|r g IH]; intros Hnone; [done|].
  cbn [List.filter]. unfold granted_to at 1.
  assert ((Reward.learner_id r =? learner_id) = false) as ->.
  { apply String.eqb_neq, Hnone. by left. }
  apply IH. intros r' Hr'. apply Hnone. by right.
Qed.

(** C7, as stated, fails: [carol] is not a registered individual, yet a
    [grant_reward] for her called with a deposit of 5 does not fail with
    NotFound: the decorator rejects the call as not payable. *)
Lemma grant_reward_counterexample :
  individuals Scenario.registered !! "carol" = None
  ∧ ¬ fails_with NotFound (grant_reward "carol" "unregistered")
        (Scenario.ctx "school" 5) Scenario.registered
  ∧ invoke (Scenario.ctx "school" 5) (Grant_reward "carol" "unregistered")
      Scenario.registered
    = (Throw (Error "Function is not payable"), Scenario.registered).
Proof.
  split; [reflexivity|]. split.
  - by apply rejected_fails_with_nothing.
  - by apply invoke_not_payable.
Qed.

(** C7 (amended): after any sequence of calls on a fresh contract,
    [list_rewards] returns exactly the rewards created for the learner by
    the successful [grant_reward] calls, in the order of the calls, which
    is the order of their ids [reward_1], [reward_2], ...; it returns the
    empty sequence for a learner who was granted none; [grant_reward]
    called with no deposit attached fails with NotFound for a learner who
    is not a registered individual, and called with a deposit it is
    rejected as not payable. *)
Theorem list_rewards_spec calls learner_id :
  (∀ ctx,
     list_rewards learner_id ctx (start (snd (run calls constructor)))
     = (Normal (List.filter (granted_to learner_id)
                  (granted (fst (run calls constructor)))),
        start (snd (run calls constructor))))
  ∧ Reward.id <$> granted (fst (run calls constructor))
    = reward_id <$> seq 1 (length (granted (fst (run calls constructor))))
  ∧ ((∀ r, r ∈ granted (fst (run calls constructor)) →
           Reward.learner_id r ≠ learner_id) →
     ∀ ctx, view ctx (list_rewards learner_id) (snd (run calls constructor))
            = Normal [])
  ∧ (∀ ctx c milestone,
       near.deposit ctx = 0%N →
       individuals c !! learner_id = None →
       fails_with NotFound (grant_reward learner_id milestone) ctx c)
  ∧ (∀ ctx c milestone,
       near.deposit ctx ≠ 0%N →
       grant_reward learner_id milestone ctx (start c)
       = (Throw (Error "Function is not payable"), start c)).
Proof.
  pose proof (run_ledger calls constructor [] ledger_constructor) as Hl.
  rewrite app_nil_l in Hl.
  assert (∀ ctx,
     list_rewards learner_id ctx (start (snd (run calls constructor)))
     = (Normal (List.filter (granted_to learner_id)
                  (granted (fst (run calls constructor)))),
        start (snd (run calls constructor)))) as Hlist.
  { intros ctx.
    change (list_rewards learner_id ctx (start (snd (run calls constructor))))
      with (list_rewards_loop learner_id
              (reward_counter (snd (run calls constructor))) 1 [] ctx
              (start (snd (run calls constructor)))).
    rewrite (list_rewards_loop_run learner_id ctx _ _ Hl _ 0 []).
    - by rewrite drop_0.
    - by destruct Hl as [-> _]. }
  split; [exact Hlist|]. split; [by eapply ledger_ids|]. split; [|split].
  - intros Hnone ctx. unfold view. rewrite Hlist. cbn [fst].
    by rewrite filter_granted_to_none.
  - intros ctx c milestone Hd Hnone. exists (Error "Learner not found").
    split; [|done]. unfold_body. no_deposit Hd. by rewrite Hnone.
  - intros ctx c milestone Hd. by apply call_not_payable.
Qed.

Lemma list_rewards_spec_witness :
  List.map snd (fst (run (Scenario.setup ++ Scenario.grants) constructor))
  = [ Normal undefined; Normal undefined; Normal undefined;
      Normal (str "reward_1"); Throw (Error "Learner not found");
      Throw (Error "Individual already registered"); Normal undefined;
      Normal (str "reward_2"); Normal (str "reward_3") ]
  ∧ (Reward.milestone
       <$> List.filter (granted_to "alice")
             (granted (fst (run (Scenario.setup ++ Scenario.grants) constructor))))
    = ["first course"; "second course"]
  ∧ view (Scenario.ctx "bob" 0) (list_rewards "alice")
      (snd (run (Scenario.setup ++ Scenario.grants) constructor))
    = Normal (List.filter (granted_to "alice")
                (granted (fst (run (Scenario.setup ++ Scenario.grants) constructor))))
  ∧ view (Scenario.ctx "bob" 0) (list_rewards "school")
      (snd (run (Scenario.setup ++ Scenario.grants) constructor))
    = Normal []
  ∧ individuals Scenario.registered !! "carol" = None
  ∧ fails_with NotFound (grant_reward "carol" "unregistered") (Scenario.ctx "school" 0)
      Scenario.registered
  ∧ grant_reward "alice" "paid" (Scenario.ctx "school" 1) (start Scenario.registered)
    = (Throw (Error "Function is not payable"), start Scenario.registered).
Proof.
  split; [vm_compute; reflexivity|]. split; [vm_compute; reflexivity|].
  pose proof (list_rewards_spec (Scenario.setup ++ Scenario.grants) "alice")
    as (Hlist & _).
  pose proof (list_rewards_spec (Scenario.setup ++ Scenario.grants) "school")
    as (_ & _ & Hnone & _).
  pose proof (list_rewards_spec [] "carol") as (_ & _ & _ & Hfail & _).
  pose proof (list_rewards_spec [] "alice") as (_ & _ & _ & _ & Hpaid).
  split; [|split; [|split; [|split]]].
  - unfold view. by rewrite Hlist.
  - apply Hnone. intros r Hr. vm_compute in Hr.
    repeat (apply elem_of_cons in Hr as [->|Hr]; [discriminate|]).
    by apply elem_of_nil in Hr.
  - reflexivity.
  - apply Hfail; reflexivity.
  - apply Hpaid. discriminate.
Defined.

(** ** The scenario of the specification, end to end *)

Example scenario_outcomes :
  List.map snd
    (fst (run (Scenario.setup ++ [Scenario.issue] ++ Scenario.mutations) constructor))
  = [ Normal undefined; Normal undefined; Normal undefined;
      Normal (str "cert_1");
      Normal undefined;
      Throw (Error "Unauthorized to revoke this certificate");
      Normal (str "reward_1");
      Normal undefined;
      Throw (Error "Unauthorized to update this certificate") ].
Proof. vm_compute. reflexivity. Qed.

Example scenario_validate_before_revocation :
  view (Scenario.ctx "bob" 0) (validate_certificate "cert_1") Scenario.issued
  = Normal (Some
      {| CertificateMetadata.learner_id := "alice";
         CertificateMetadata.course_id := "course1";
         CertificateMetadata.course_name := "Blockchain Fundamentals";
         CertificateMetadata.completion_date := "2024-01-15";
         CertificateMetadata.issuer_org_id := "school";
         CertificateMetadata.skills := ["blockchain"; "cryptocurrency"];
         CertificateMetadata.grade := Some "A" |}).
Proof. vm_compute. reflexivity. Qed.

Example scenario_validate_after_revocation :
  view (Scenario.ctx "bob" 0) (validate_certificate "cert_1") Scenario.revoked
  = Throw (Error "Certificate has been revoked").
Proof. vm_compute. reflexivity. Qed.

Example scenario_payment_effects :
  snd (process_payment "alice" "10" (Scenario.ctx "bob" 12) (start Scenario.registered))
  = {| this := Scenario.registered;
       emitted :=
         [ near.PromiseBatchCreate "alice";
           near.PromiseBatchActionTransfer 0 10;
           near.PromiseReturn 0;
           near.Log "Payment processed: bob -> alice, amount: 10" ];
       ticks := 0 |}.
Proof. vm_compute. reflexivity. Qed.

(** ** Every entry point: failures, effects, footprint *)

Ltac split_body :=
  repeat match goal with
         | |- context [match ?x with _ => _ end] =>
             lazymatch x with
             | context [match _ with _ => _ end] => fail
             | _ => destruct x eqn:?
             end
         end.

(** X1: a method body that throws has done nothing before: it has written
    no collection and no counter, logged nothing, created no promise and
    not read the clock.  No failure of the contract relies on the host to
    undo a write. *)
Theorem throw_before_effects r ctx c e m :
  dispatch r ctx (start c) = (Throw e, m) → m = start c.
Proof.
  destruct r; unfold_body; split_body; intros [= <- <-] || intros [=];
    reflexivity.
Qed.

Lemma throw_before_effects_witness :
  fst (dispatch (Update_certificate_status "cert_1" "completed")
         (Scenario.ctx "bob" 0) (start Scenario.issued))
  = Throw (Error "Unauthorized to update this certificate")
  ∧ snd (dispatch (Update_certificate_status "cert_1" "completed")
           (Scenario.ctx "bob" 0) (start Scenario.issued))
    = start Scenario.issued.
Proof.
  assert (H : dispatch (Update_certificate_status "cert_1" "completed")
                (Scenario.ctx "bob" 0) (start Scenario.issued)
              = (Throw (Error "Unauthorized to update this certificate"),
                 snd (dispatch (Update_certificate_status "cert_1" "completed")
                        (Scenario.ctx "bob" 0) (start Scenario.issued))))
    by (vm_compute; reflexivity).
  split.
  - by rewrite H.
  - exact (throw_before_effects _ _ _ _ _ H).
Defined.

(** X2: the failures each entry point can answer with.  A call to an
    entry point other than [process_payment] with a deposit attached is
    rejected by the decorator with the Error [Function is not payable];
    any other thrown [Error] is one of the kinds listed for the entry
    point by [may_fail_with], and then the decorator had accepted the
    call; the only other thrown value is the SyntaxError of
    [process_payment] for an amount that is not an integer literal. *)
Theorem failures_by_entry_point r ctx c e m :
  dispatch r ctx (start c) = (Throw e, m) →
  (accepted ctx r ∧ ∃ k, kind_of e = Some k ∧ k ∈ may_fail_with r)
  ∨ (∃ recipient_id amount msg,
       r = Process_payment recipient_id amount
       ∧ StringToBigInt amount = None
       ∧ e = SyntaxError msg)
  ∨ (payable r = false
     ∧ near.deposit ctx ≠ 0%N
     ∧ e = Error "Function is not payable").
Proof.
  destruct r; unfold_body; split_body; intros [= <- <-] || intros [=];
    try match goal with
        | H : (0 <? Z.of_N _)%Z = false |- _ => apply no_deposit_ltb in H
        | H : (0 <? Z.of_N _)%Z = true |- _ =>
            right; right; split; [reflexivity|]; split; [|reflexivity];
            intros Hz; rewrite Hz in H; discriminate H
        end;
    try (left; split; [done|]; eexists; split; [reflexivity|]; cbn; set_solver).
  right. left. by do 3 eexists.
Qed.

Lemma failures_by_entry_point_witness :
  fst (dispatch (Issue_certificate "carol" "course2" Scenario.payload)
         (Scenario.ctx "school" 0) (start Scenario.issued))
  = Throw (Error "Learner not found")
  ∧ ((accepted (Scenario.ctx "school" 0)
        (Issue_certificate "carol" "course2" Scenario.payload)
      ∧ ∃ k, kind_of (Error "Learner not found") = Some k
             ∧ k ∈ [Unauthorized; NotFound])
     ∨ (∃ recipient_id amount msg,
          Issue_certificate "carol" "course2" Scenario.payload
          = Process_payment recipient_id amount
          ∧ StringToBigInt amount = None
          ∧ Error "Learner not found" = SyntaxError msg)
     ∨ (payable (Issue_certificate "carol" "course2" Scenario.payload) = false
        ∧ near.deposit (Scenario.ctx "school" 0) ≠ 0%N
        ∧ Error "Learner not found" = Error "Function is not payable")).
Proof.
  assert (H : dispatch (Issue_certificate "carol" "course2" Scenario.payload)
                (Scenario.ctx "school" 0) (start Scenario.issued)
              = (Throw (Error "Learner not found"),
                 snd (dispatch (Issue_certificate "carol" "course2" Scenario.payload)
                        (Scenario.ctx "school" 0) (start Scenario.issued))))
    by (vm_compute; reflexivity).
  split.
  - by rewrite H.
  - exact (failures_by_entry_point _ _ _ _ _ H).
Defined.

(** X3: what a completed call hands to the host.  Every entry point but
    [process_payment] emits exactly one log line and nothing else, so no
    other entry point creates a promise or moves funds; [process_payment]
    emits one batch for the recipient with one transfer, returns it, and
    logs once. *)
Theorem effects_of_completed_calls r ctx c v m :
  dispatch r ctx (start c) = (Normal v, m) →
  match r with
  | Process_payment recipient_id amount =>
      ∃ a msg,
        StringToBigInt amount = Some a
        ∧ emitted m = [ near.PromiseBatchCreate recipient_id;
                        near.PromiseBatchActionTransfer 0 a;
                        near.PromiseReturn 0;
                        near.Log msg ]
  | _ => ∃ msg, emitted m = [near.Log msg]
  end.
Proof.
  destruct r; unfold_body; split_body; intros [= <- <-] || intros [=];
    cbn; eauto.
Qed.

Lemma effects_of_completed_calls_witness :
  fst (dispatch (Grant_reward "alice" "first course") (Scenario.ctx "bob" 0)
         (start Scenario.registered))
  = Normal (str "reward_1")
  ∧ ∃ msg,
      emitted (snd (dispatch (Grant_reward "alice" "first course")
                      (Scenario.ctx "bob" 0) (start Scenario.registered)))
      = [near.Log msg].
Proof.
  assert (H : dispatch (Grant_reward "alice" "first course") (Scenario.ctx "bob" 0)
                (start Scenario.registered)
              = (Normal (str "reward_1"),
                 snd (dispatch (Grant_reward "alice" "first course")
                        (Scenario.ctx "bob" 0) (start Scenario.registered))))
    by (vm_compute; reflexivity).
  split.
  - by rewrite H.
  - exact (effects_of_completed_calls _ _ _ _ _ H).
Defined.

(** The loop of [list_rewards] completes and leaves the machine alone. *)
Lemma list_rewards_loop_pure learner_id ctx m remaining :
  ∀ i acc, ∃ result,
    list_rewards_loop learner_id remaining i acc ctx m = (Normal result, m).
Proof.
  induction remaining as [|remaining IH]; intros i acc.
  - by eexists.
  - destruct (IH (S i)
                match rewards (this m) !! reward_id i with
                | Some r => if Reward.learner_id r =? learner_id then acc ++ [r]
                            else acc
                | None => acc
                end) as [result Hresult].
    exists result. rewrite <- Hresult. reflexivity.
Qed.

(** X4: the read-only methods are read-only.  [get_individual],
    [get_organization], [get_certificate], [get_certificate_history] and
    [list_rewards] always complete, [validate_certificate] completes or
    throws, and all six leave the contract, the log and the clock as they
    found them. *)
Theorem views_change_nothing ctx c :
  (∀ id, ∃ v, get_individual id ctx (start c) = (Normal v, start c))
  ∧ (∀ id, ∃ v, get_organization id ctx (start c) = (Normal v, start c))
  ∧ (∀ id, ∃ v, get_certificate id ctx (start c) = (Normal v, start c))
  ∧ (∀ id, ∃ v, get_certificate_history id ctx (start c) = (Normal v, start c))
  ∧ (∀ id, ∃ v, list_rewards id ctx (start c) = (Normal v, start c))
  ∧ (∀ id, snd (validate_certificate id ctx (start c)) = start c).
Proof.
  repeat split; intros id; try by eexists.
  - apply (list_rewards_loop_pure id ctx (start c) (reward_counter c) 1 []).
  - unfold_body. split_body; reflexivity.
Qed.

(** X5: the footprint of each entry point on the stored contract.
    Registering an individual touches the individuals only; registering or
    verifying an organization touches the organizations only; issuing,
    updating and revoking touch the certificates, their histories and the
    certificate counter only (updating and revoking not even the counter);
    granting a reward touches the rewards and the reward counter only;
    processing a payment touches nothing. *)
Theorem footprint ctx r c :
  let c' := snd (invoke ctx r c) in
  match r with
  | Register_individual _ _ _ =>
      organizations c' = organizations c ∧ certificates c' = certificates c
      ∧ certificate_history c' = certificate_history c ∧ rewards c' = rewards c
      ∧ certificate_counter c' = certificate_counter c
      ∧ reward_counter c' = reward_counter c
  | Register_organization _ _ | Verify_organization _ =>
      individuals c' = individuals c ∧ certificates c' = certificates c
      ∧ certificate_history c' = certificate_history c ∧ rewards c' = rewards c
      ∧ certificate_counter c' = certificate_counter c
      ∧ reward_counter c' = reward_counter c
  | Issue_certificate _ _ _ =>
      individuals c' = individuals c ∧ organizations c' = organizations c
      ∧ rewards c' = rewards c ∧ reward_counter c' = reward_counter c
  | Update_certificate_status _ _ | Revoke_certificate _ _ =>
      individuals c' = individuals c ∧ organizations c' = organizations c
      ∧ rewards c' = rewards c ∧ reward_counter c' = reward_counter c
      ∧ certificate_counter c' = certificate_counter c
  | Grant_reward _ _ =>
      individuals c' = individuals c ∧ organizations c' = organizations c
      ∧ certificates c' = certificates c
      ∧ certificate_history c' = certificate_history c
      ∧ certificate_counter c' = certificate_counter c
  | Process_payment _ _ => c' = c
  end.
Proof.
  cbn zeta. by_decorator ctx r c; [by destruct r|].
  destruct r; cbn [accepted] in Hd.
  - rewrite (invoke_register_individual _ Hd). by destruct (individuals c !! _).
  - rewrite (invoke_register_organization _ Hd). by destruct (organizations c !! _).
  - rewrite (invoke_verify_organization _ Hd). by destruct (organizations c !! _).
  - rewrite (invoke_issue_certificate _ Hd). destruct (not_verified _); [done|].
    by destruct (individuals c !! _).
  - rewrite (invoke_update_certificate_status _ Hd).
    destruct (certificates c !! _); [|done]. by destruct (_ =? _).
  - rewrite (invoke_revoke_certificate _ Hd).
    destruct (certificates c !! _); [|done]. by destruct (_ =? _).
  - rewrite (invoke_grant_reward _ Hd). by destruct (individuals c !! _).
  - by destruct (invoke_process_payment ctx recipient_id amount c) as [out ->].
Qed.

(** ** Nothing is ever deleted or rebound *)

Lemma same_or_verified_refl o : same_or_verified o o.
Proof. by repeat split. Qed.

Lemma same_or_verified_trans o1 o2 o3 :
  same_or_verified o1 o2 → same_or_verified o2 o3 → same_or_verified o1 o3.
Proof.
  intros (?&?&?&?&?) (?&?&?&?&?). repeat split; try congruence. auto.
Qed.

(** One call keeps every individual as registered and every organization
    up to its verification. *)
Lemma invoke_keeps_records ctx r c :
  (∀ a i, individuals c !! a = Some i →
          individuals (snd (invoke ctx r c)) !! a = Some i)
  ∧ (∀ a o, organizations c !! a = Some o →
            ∃ o', organizations (snd (invoke ctx r c)) !! a = Some o'
                  ∧ same_or_verified o o').
Proof.
  pose proof same_or_verified_refl as Hrefl.
  by_decorator ctx r c; [cbn [snd]; by eauto|].
  destruct r; cbn [accepted] in Hd.
  - rewrite (invoke_register_individual _ Hd).
    destruct (individuals c !! near.predecessor ctx) eqn:Hc; [by eauto|].
    split; [|by eauto]. intros a i Ha. simpl_contract.
    rewrite lookup_insert_ne; [done|]. congruence.
  - rewrite (invoke_register_organization _ Hd).
    destruct (organizations c !! near.predecessor ctx) eqn:Hc; [by eauto|].
    split; [done|]. intros a o Ha. simpl_contract. exists o.
    rewrite lookup_insert_ne; [done|]. congruence.
  - rewrite (invoke_verify_organization _ Hd).
    destruct (organizations c !! organization_id) as [o0|] eqn:Hc; [|by eauto].
    split; [done|]. intros a o Ha. simpl_contract.
    destruct (decide (organization_id = a)) as [->|Hne].
    + rewrite lookup_insert_eq. eexists. split; [reflexivity|].
      assert (o0 = o) as -> by congruence. by repeat split.
    + rewrite lookup_insert_ne by done. eauto.
  - rewrite (invoke_issue_certificate _ Hd). destruct (not_verified _); [by eauto|].
    destruct (individuals c !! _); by eauto.
  - rewrite (invoke_update_certificate_status _ Hd).
    destruct (certificates c !! _); [|by eauto]. destruct (_ =? _); by eauto.
  - rewrite (invoke_revoke_certificate _ Hd).
    destruct (certificates c !! _); [|by eauto]. destruct (_ =? _); by eauto.
  - rewrite (invoke_grant_reward _ Hd). destruct (individuals c !! _); by eauto.
  - destruct (invoke_process_payment ctx recipient_id amount c) as [out ->].
    by eauto.
Qed.

(** X6: registrations are permanent.  Through any sequence of calls a
    registered individual keeps exactly the record it registered with, and
    a registered organization keeps its id, name, contact and registration
    time; the only field that can change is [verified], from false to
    true.  No call removes or overwrites either. *)
Theorem registrations_are_permanent calls c :
  (∀ a i, individuals c !! a = Some i →
          individuals (snd (run calls c)) !! a = Some i)
  ∧ (∀ a o, organizations c !! a = Some o →
            ∃ o', organizations (snd (run calls c)) !! a = Some o'
                  ∧ same_or_verified o o').
Proof.
  revert c. induction calls as [|[ctx r] calls IH]; intros c.
  - split; [done|]. intros a o Ha. exists o. split; [done|].
    apply same_or_verified_refl.
  - rewrite run_cons. cbn [snd].
    destruct (invoke_keeps_records ctx r c) as [Hi Ho].
    destruct (IH (snd (invoke ctx r c))) as [Hi' Ho']. split.
    + intros a i Ha. by apply Hi', Hi.
    + intros a o Ha. destruct (Ho a o Ha) as (o1 & Ho1 & Hs1).
      destruct (Ho' a o1 Ho1) as (o2 & Ho2 & Hs2).
      exists o2. split; [done|]. by eapply same_or_verified_trans.
Qed.

Lemma registrations_are_permanent_witness :
  ∃ alice school,
    individuals Scenario.registered !! "alice" = Some alice
    ∧ organizations Scenario.registered !! "school" = Some school
    ∧ individuals (snd (run (Scenario.issue :: Scenario.mutations ++ Scenario.grants)
                          Scenario.registered)) !! "alice" = Some alice
    ∧ ∃ school',
        organizations (snd (run (Scenario.issue :: Scenario.mutations ++ Scenario.grants)
                              Scenario.registered)) !! "school" = Some school'
        ∧ same_or_verified school school'.
Proof.
  assert (∃ alice, individuals Scenario.registered !! "alice" = Some alice)
    as [alice Ha] by (eexists; vm_compute; reflexivity).
  assert (∃ school, organizations Scenario.registered !! "school" = Some school)
    as [school Hs] by (eexists; vm_compute; reflexivity).
  pose proof (registrations_are_permanent
                (Scenario.issue :: Scenario.mutations ++ Scenario.grants)
                Scenario.registered) as [Hi Ho].
  exists alice, school. split; [exact Ha|]. split; [exact Hs|].
  split; [exact (Hi _ _ Ha)|exact (Ho _ _ Hs)].
Defined.

(** One call keeps a stored certificate numbered at or below the counter
    stored, with its id, metadata and issuance time. *)
Lemma invoke_keeps_binding ctx r c k cert :
  (k ≤ certificate_counter c)%nat →
  certificates c !! cert_id k = Some cert →
  ∃ cert',
    certificates (snd (invoke ctx r c)) !! cert_id k = Some cert'
    ∧ Certificate.id cert' = Certificate.id cert
    ∧ Certificate.metadata cert' = Certificate.metadata cert
    ∧ Certificate.issued_at cert' = Certificate.issued_at cert.
Proof.
  intros Hk Hcert. by_decorator ctx r c; [cbn [snd]; by eauto|].
  destruct r; cbn [accepted] in Hd.
  - rewrite (invoke_register_individual _ Hd). destruct (individuals c !! _); by eauto.
  - rewrite (invoke_register_organization _ Hd). destruct (organizations c !! _); by eauto.
  - rewrite (invoke_verify_organization _ Hd). destruct (organizations c !! _); by eauto.
  - rewrite (invoke_issue_certificate _ Hd). destruct (not_verified _); [by eauto|].
    destruct (individuals c !! _); [|by eauto]. simpl_contract.
    rewrite lookup_insert_ne; [by eauto|]. intros ?%cert_id_inj. lia.
  - rewrite (invoke_update_certificate_status _ Hd).
    destruct (decide (certificate_id = cert_id k)) as [->|Hne].
    + rewrite Hcert. destruct (_ =? _); [|by eauto]. simpl_contract.
      rewrite lookup_insert_eq. by eauto.
    + destruct (certificates c !! certificate_id); [|by eauto].
      destruct (_ =? _); [|by eauto]. simpl_contract.
      rewrite lookup_insert_ne by done. by eauto.
  - rewrite (invoke_revoke_certificate _ Hd).
    destruct (decide (certificate_id = cert_id k)) as [->|Hne].
    + rewrite Hcert. destruct (_ =? _); [|by eauto]. simpl_contract.
      rewrite lookup_insert_eq. by eauto.
    + destruct (certificates c !! certificate_id); [|by eauto].
      destruct (_ =? _); [|by eauto]. simpl_contract.
      rewrite lookup_insert_ne by done. by eauto.
  - rewrite (invoke_grant_reward _ Hd). destruct (individuals c !! _); by eauto.
  - destruct (invoke_process_payment ctx recipient_id amount c) as [out ->].
    by eauto.
Qed.

(** X7: a certificate is bound for good.  Through any sequence of calls a
    stored certificate whose number is at most the counter stays stored
    under its id with the same [id] field, the same metadata (learner,
    course, issuer, ...) and the same [issued_at]; only its status and
    [updated_at] can change. *)
Theorem certificate_binding_is_permanent calls c k cert :
  (k ≤ certificate_counter c)%nat →
  certificates c !! cert_id k = Some cert →
  ∃ cert',
    certificates (snd (run calls c)) !! cert_id k = Some cert'
    ∧ Certificate.id cert' = Certificate.id cert
    ∧ Certificate.metadata cert' = Certificate.metadata cert
    ∧ Certificate.issued_at cert' = Certificate.issued_at cert.
Proof.
  revert c cert. induction calls as [|[ctx r] calls IH]; intros c cert Hk Hcert.
  - by eauto.
  - rewrite run_cons. cbn [snd].
    destruct (invoke_keeps_binding ctx r c k cert Hk Hcert)
      as (cert1 & Hcert1 & Hid1 & Hm1 & Hi1).
    destruct (IH (snd (invoke ctx r c)) cert1) as (cert2 & Hcert2 & Hid2 & Hm2 & Hi2);
      [|done|].
    { etrans; [exact Hk|apply invoke_counter_mono]. }
    exists cert2. split; [done|]. repeat split; congruence.
Qed.

Lemma certificate_binding_is_permanent_witness :
  ∃ cert cert',
    (1 ≤ certificate_counter Scenario.issued)%nat
    ∧ certificates Scenario.issued !! cert_id 1 = Some cert
    ∧ certificates (snd (run Scenario.mutations Scenario.issued)) !! cert_id 1
      = Some cert'
    ∧ Certificate.status cert = "pending"
    ∧ Certificate.status cert' = "revoked"
    ∧ Certificate.metadata cert' = Certificate.metadata cert.
Proof.
  assert (Hk : (1 ≤ certificate_counter Scenario.issued)%nat)
    by (vm_compute; reflexivity).
  assert (∃ cert, certificates Scenario.issued !! cert_id 1 = Some cert
                  ∧ Certificate.status cert = "pending")
    as (cert & Hcert & Hs) by (eexists; split; vm_compute; reflexivity).
  destruct (certificate_binding_is_permanent Scenario.mutations _ _ _ Hk Hcert)
    as (cert' & Hcert' & _ & Hm & _).
  exists cert, cert'. split; [exact Hk|]. split; [exact Hcert|].
  split; [exact Hcert'|]. split; [exact Hs|]. split; [|exact Hm].
  assert (Certificate.status
            <$> certificates (snd (run Scenario.mutations Scenario.issued)) !! cert_id 1
          = Some "revoked") as Hr by (vm_compute; reflexivity).
  rewrite Hcert' in Hr. by injection Hr.
Defined.

(** ** Rewards are permanent *)

Lemma invoke_keeps_reward ctx r c k :
  (k ≤ reward_counter c)%nat →
  rewards (snd (invoke ctx r c)) !! reward_id k = rewards c !! reward_id k
  ∧ (reward_counter c ≤ reward_counter (snd (invoke ctx r c)))%nat.
Proof.
  intros Hk. by_decorator ctx r c; [cbn [snd]; by eauto|].
  destruct r; cbn [accepted] in Hd.
  - rewrite (invoke_register_individual _ Hd). by destruct (individuals c !! _).
  - rewrite (invoke_register_organization _ Hd). by destruct (organizations c !! _).
  - rewrite (invoke_verify_organization _ Hd). by destruct (organizations c !! _).
  - rewrite (invoke_issue_certificate _ Hd). destruct (not_verified _); [done|].
    by destruct (individuals c !! _).
  - rewrite (invoke_update_certificate_status _ Hd).
    destruct (certificates c !! _); [|done]. by destruct (_ =? _).
  - rewrite (invoke_revoke_certificate _ Hd).
    destruct (certificates c !! _); [|done]. by destruct (_ =? _).
  - rewrite (invoke_grant_reward _ Hd). destruct (individuals c !! _); [|done].
    simpl_contract. split; [|lia].
    rewrite lookup_insert_ne; [done|]. intros ?%reward_id_inj. lia.
  - by destruct (invoke_process_payment ctx recipient_id amount c) as [out ->].
Qed.

(** X8: a reward is never changed or removed.  Through any sequence of
    calls, what is stored under [reward_<k>], for [k] at most the reward
    counter, stays exactly as it is, and the counter never decreases. *)
Theorem rewards_are_permanent calls c k :
  (k ≤ reward_counter c)%nat →
  rewards (snd (run calls c)) !! reward_id k = rewards c !! reward_id k
  ∧ (reward_counter c ≤ reward_counter (snd (run calls c)))%nat.
Proof.
  revert c. induction calls as [|[ctx r] calls IH]; intros c Hk; [done|].
  rewrite run_cons. cbn [snd].
  destruct (invoke_keeps_reward ctx r c k Hk) as [Hr Hc].
  destruct (IH (snd (invoke ctx r c))) as [Hr' Hc']; [lia|].
  split; [congruence|lia].
Qed.

Lemma rewards_are_permanent_witness :
  (1 ≤ reward_counter (snd (run Scenario.grants Scenario.registered)))%nat
  ∧ Reward.milestone
      <$> rewards (snd (run Scenario.grants Scenario.registered)) !! reward_id 1
    = Some "first course"
  ∧ rewards (snd (run (Scenario.issue :: Scenario.mutations)
                    (snd (run Scenario.grants Scenario.registered)))) !! reward_id 1
    = rewards (snd (run Scenario.grants Scenario.registered)) !! reward_id 1.
Proof.
  assert (Hk : (1 ≤ reward_counter (snd (run Scenario.grants Scenario.registered)))%nat)
    by (vm_compute; lia).
  split; [exact Hk|]. split; [vm_compute; reflexivity|].
  exact (proj1 (rewards_are_permanent (Scenario.issue :: Scenario.mutations) _ 1 Hk)).
Defined.

(** ** Certificates of a contract that started empty *)

Lemma run_issued_seq calls c :
  issued_ids (fst (run calls c))
  = cert_id <$> seq (S (certificate_counter c))
                  (certificate_counter (snd (run calls c)) - certificate_counter c).
Proof.
  revert c. induction calls as [|[ctx r] calls IH]; intros c.
  - cbn. by rewrite Nat.sub_diag.
  - rewrite run_cons. cbn [fst snd]. unfold issued_ids. cbn [omap list_omap].
    fold (issued_ids (fst (run calls (snd (invoke ctx r c))))).
    pose proof (invoke_issued ctx r c) as Hstep.
    pose proof (run_counter_mono calls (snd (invoke ctx r c))) as Hmono.
    rewrite IH. destruct (issued_id _) as [id|].
    + destruct Hstep as [-> Hc]. rewrite Hc in *.
      replace (certificate_counter (snd (run calls (snd (invoke ctx r c))))
               - certificate_counter c)
        with (S (certificate_counter (snd (run calls (snd (invoke ctx r c))))
                 - S (certificate_counter c))) by lia.
      reflexivity.
    + by rewrite Hstep.
Qed.

Lemma numbered_constructor : numbered constructor.
Proof.
  split.
  - intros id. cbn. rewrite lookup_empty. split.
    + by intros [? ?].
    + intros (k & Hk & _). lia.
  - intros id. cbn. by rewrite !lookup_empty.
Qed.

Lemma invoke_numbered ctx r c : numbered c → numbered (snd (invoke ctx r c)).
Proof.
  intros [Hc Hh]. by_decorator ctx r c; [cbn [snd]; by eauto|].
  destruct r; cbn [accepted] in Hd.
  - rewrite (invoke_register_individual _ Hd). by destruct (individuals c !! _).
  - rewrite (invoke_register_organization _ Hd). by destruct (organizations c !! _).
  - rewrite (invoke_verify_organization _ Hd). by destruct (organizations c !! _).
  - rewrite (invoke_issue_certificate _ Hd). destruct (not_verified _); [done|].
    destruct (individuals c !! _); [|done]. split; intros id; simpl_contract.
    + rewrite lookup_insert_is_Some', Hc. split.
      * intros [<-|(k & Hk & ->)].
        -- exists (S (certificate_counter c)). split; [lia|done].
        -- exists k. split; [lia|done].
      * intros (k & Hk & ->).
        destruct (decide (k = S (certificate_counter c))) as [->|Hne]; [by left|].
        right. exists k. split; [lia|done].
    + rewrite !lookup_insert_is_Some', Hh. done.
  - rewrite (invoke_update_certificate_status _ Hd).
    destruct (certificates c !! certificate_id) as [cert|] eqn:Hcert; [|done].
    destruct (_ =? _); [|done]. split; intros id; simpl_contract.
    + rewrite lookup_insert_is_Some', Hc. split; [|by right].
      intros [<-|H]; [|done]. apply Hc. by eexists.
    + rewrite !lookup_insert_is_Some', Hh. done.
  - rewrite (invoke_revoke_certificate _ Hd).
    destruct (certificates c !! certificate_id) as [cert|] eqn:Hcert; [|done].
    destruct (_ =? _); [|done]. split; intros id; simpl_contract.
    + rewrite lookup_insert_is_Some', Hc. split; [|by right].
      intros [<-|H]; [|done]. apply Hc. by eexists.
    + rewrite !lookup_insert_is_Some', Hh. done.
  - rewrite (invoke_grant_reward _ Hd). by destruct (individuals c !! _).
  - by destruct (invoke_process_payment ctx recipient_id amount c) as [out ->].
Qed.

Lemma run_numbered calls c : numbered c → numbered (snd (run calls c)).
Proof.
  revert c. induction calls as [|[ctx r] calls IH]; intros c H; [done|].
  rewrite run_cons. cbn [snd]. by apply IH, invoke_numbered.
Qed.

(** X9: certificate ids are handed out without gaps and never reused.  After
    any sequence of calls on a fresh contract with [n] successful
    issuances, the ids returned are [cert_1], ..., [cert_n] in that order,
    the counter is [n], the stored certificates are exactly those under
    [cert_1], ..., [cert_n], and a history is stored exactly for the stored
    certificates. *)
Theorem certificates_are_numbered calls :
  issued_ids (fst (run calls constructor))
  = cert_id <$> seq 1 (certificate_counter (snd (run calls constructor)))
  ∧ length (issued_ids (fst (run calls constructor)))
    = certificate_counter (snd (run calls constructor))
  ∧ numbered (snd (run calls constructor)).
Proof.
  pose proof (run_issued_seq calls constructor) as Hseq.
  cbn [certificate_counter constructor] in Hseq. rewrite Nat.sub_0_r in Hseq.
  split; [exact Hseq|]. split.
  - by rewrite Hseq, length_fmap, length_seq.
  - apply run_numbered, numbered_constructor.
Qed.

(** Only [register_individual] writes the individuals, and only
    [register_organization] and [verify_organization] the organizations. *)
Lemma invoke_leaves_individuals ctx r c :
  match r with
  | Register_individual _ _ _ => True
  | _ => individuals (snd (invoke ctx r c)) = individuals c
  end.
Proof.
  by_decorator ctx r c; [by destruct r|].
  destruct r; cbn [accepted] in Hd; [done|..].
  - rewrite (invoke_register_organization _ Hd). by destruct (organizations c !! _).
  - rewrite (invoke_verify_organization _ Hd). by destruct (organizations c !! _).
  - rewrite (invoke_issue_certificate _ Hd). destruct (not_verified _); [done|].
    by destruct (individuals c !! _).
  - rewrite (invoke_update_certificate_status _ Hd).
    destruct (certificates c !! _); [|done]. by destruct (_ =? _).
  - rewrite (invoke_revoke_certificate _ Hd).
    destruct (certificates c !! _); [|done]. by destruct (_ =? _).
  - rewrite (invoke_grant_reward _ Hd). by destruct (individuals c !! _).
  - by destruct (invoke_process_payment ctx recipient_id amount c) as [out ->].
Qed.

Lemma invoke_leaves_organizations ctx r c :
  match r with
  | Register_organization _ _ | Verify_organization _ => True
  | _ => organizations (snd (invoke ctx r c)) = organizations c
  end.
Proof.
  by_decorator ctx r c; [by destruct r|].
  destruct r; cbn [accepted] in Hd; [|done|done|..].
  - rewrite (invoke_register_individual _ Hd). by destruct (individuals c !! _).
  - rewrite (invoke_issue_certificate _ Hd). destruct (not_verified _); [done|].
    by destruct (individuals c !! _).
  - rewrite (invoke_update_certificate_status _ Hd).
    destruct (certificates c !! _); [|done]. by destruct (_ =? _).
  - rewrite (invoke_revoke_certificate _ Hd).
    destruct (certificates c !! _); [|done]. by destruct (_ =? _).
  - rewrite (invoke_grant_reward _ Hd). by destruct (individuals c !! _).
  - by destruct (invoke_process_payment ctx recipient_id amount c) as [out ->].
Qed.

Lemma sound_constructor : sound constructor.
Proof.
  split; [|split]; intros ? ?; cbn; by rewrite lookup_empty.
Qed.

(** A sound certificate stays sound when the call leaves it and its
    history as they are. *)
Lemma certificate_sound_frame ctx r c id cert :
  certificate_history (snd (invoke ctx r c)) !! id = certificate_history c !! id →
  certificate_sound c id cert →
  certificate_sound (snd (invoke ctx r c)) id cert.
Proof.
  intros Hh (Hid & Hv & Hl & Hhist). split; [done|].
  split; [by apply invoke_keeps_verified|]. split.
  - destruct Hl as [i Hi]. exists i.
    by apply (proj1 (invoke_keeps_records ctx r c)).
  - by rewrite Hh.
Qed.

Lemma invoke_sound ctx r c : sound c → sound (snd (invoke ctx r c)).
Proof.
  intros Hs. by_decorator ctx r c; [exact Hs|].
  destruct Hs as (Hi & Ho & Hc). split; [|split].
  - destruct r; cbn [accepted] in Hd;
      try (match goal with
           | |- context [invoke ctx ?r c] =>
               pose proof (invoke_leaves_individuals ctx r c) as Hf
           end; cbv beta iota in Hf; by rewrite Hf).
    rewrite (invoke_register_individual _ Hd).
    destruct (individuals c !! near.predecessor ctx) eqn:Hcaller; [done|].
    intros a i. simpl_contract. rewrite lookup_insert.
    case_decide; [by intros [= <-]; subst|by apply Hi].
  - destruct r; cbn [accepted] in Hd;
      try (match goal with
           | |- context [invoke ctx ?r c] =>
               pose proof (invoke_leaves_organizations ctx r c) as Hf
           end; cbv beta iota in Hf; by rewrite Hf).
    + rewrite (invoke_register_organization _ Hd).
      destruct (organizations c !! near.predecessor ctx) eqn:Hcaller; [done|].
      intros a o. simpl_contract. rewrite lookup_insert.
      case_decide; [by intros [= <-]; subst|by apply Ho].
    + rewrite (invoke_verify_organization _ Hd).
      destruct (organizations c !! organization_id) as [o0|] eqn:Hcaller; [|done].
      intros a o. simpl_contract. rewrite lookup_insert.
      case_decide; [|by apply Ho]. intros [= <-]. subst. simpl_contract.
      by apply Ho.
  - intros id cert Hcert.
    assert (Hframe : certificates (snd (invoke ctx r c)) = certificates c →
                     certificate_history (snd (invoke ctx r c))
                     = certificate_history c →
                     certificate_sound (snd (invoke ctx r c)) id cert).
    { intros Hsame Hsame'. apply certificate_sound_frame; [by rewrite Hsame'|].
      apply Hc. by rewrite <- Hsame. }
    destruct r; cbn [accepted] in Hd.
    + apply Hframe; rewrite (invoke_register_individual _ Hd);
        by destruct (individuals c !! _).
    + apply Hframe; rewrite (invoke_register_organization _ Hd);
        by destruct (organizations c !! _).
    + apply Hframe; rewrite (invoke_verify_organization _ Hd);
        by destruct (organizations c !! _).
    + revert Hcert Hframe. rewrite (invoke_issue_certificate _ Hd).
      destruct (not_verified _) eqn:Hv; [by auto|].
      destruct (individuals c !! learner_id) as [i|] eqn:Hl; [|by auto].
      simpl_contract. intros Hcert _. rewrite lookup_insert in Hcert.
      case_decide as Hid.
      * injection Hcert as <-. subst id. split; [done|]. simpl_contract.
        split; [by apply not_verified_false|]. split; [by eexists|].
        rewrite lookup_insert_eq. do 2 eexists. split; [reflexivity|].
        split; [done|]. by repeat constructor.
      * destruct (Hc id cert Hcert) as (Hcid & Hcv & Hcl & Hch).
        split; [done|]. split; [done|]. split; [done|].
        simpl_contract. by rewrite lookup_insert_ne.
    + revert Hcert Hframe. rewrite (invoke_update_certificate_status _ Hd).
      destruct (certificates c !! certificate_id) as [cert0|] eqn:Hc0; [|by auto].
      destruct (_ =? _) eqn:Hcaller; [|by auto].
      simpl_contract. intros Hcert _. rewrite lookup_insert in Hcert.
      case_decide as Hid.
      * injection Hcert as <-. subst id.
        destruct (Hc _ _ Hc0) as (Hcid & Hcv & Hcl & first & rest & Hh & Ha & Hby).
        split; [done|]. simpl_contract. split; [done|]. split; [done|].
        rewrite lookup_insert_eq, Hh. cbn [or_empty].
        exists first, (rest ++ [ {| UpdateLog.timestamp := near.clock ctx 1;
                                    UpdateLog.action := "status_updated";
                                    UpdateLog.reason := "Status changed to " +:+ new_status;
                                    UpdateLog.by_account := near.predecessor ctx |} ]).
        split; [done|]. split; [done|].
        rewrite app_comm_cons. apply Forall_app. split; [done|].
        constructor; [|done]. simpl_contract. symmetry. by apply String.eqb_eq.
      * destruct (Hc id cert Hcert) as (Hcid & Hcv & Hcl & Hch).
        split; [done|]. split; [done|]. split; [done|].
        simpl_contract. by rewrite lookup_insert_ne.
    + revert Hcert Hframe. rewrite (invoke_revoke_certificate _ Hd).
      destruct (certificates c !! certificate_id) as [cert0|] eqn:Hc0; [|by auto].
      destruct (_ =? _) eqn:Hcaller; [|by auto].
      simpl_contract. intros Hcert _. rewrite lookup_insert in Hcert.
      case_decide as Hid.
      * injection Hcert as <-. subst id.
        destruct (Hc _ _ Hc0) as (Hcid & Hcv & Hcl & first & rest & Hh & Ha & Hby).
        split; [done|]. simpl_contract. split; [done|]. split; [done|].
        rewrite lookup_insert_eq, Hh. cbn [or_empty].
        exists first, (rest ++ [ {| UpdateLog.timestamp := near.clock ctx 1;
                                    UpdateLog.action := "revoked";
                                    UpdateLog.reason := reason;
                                    UpdateLog.by_account := near.predecessor ctx |} ]).
        split; [done|]. split; [done|].
        rewrite app_comm_cons. apply Forall_app. split; [done|].
        constructor; [|done]. simpl_contract. symmetry. by apply String.eqb_eq.
      * destruct (Hc id cert Hcert) as (Hcid & Hcv & Hcl & Hch).
        split; [done|]. split; [done|]. split; [done|].
        simpl_contract. by rewrite lookup_insert_ne.
    + apply Hframe; rewrite (invoke_grant_reward _ Hd);
        by destruct (individuals c !! _).
    + apply Hframe;
        by destruct (invoke_process_payment ctx recipient_id amount c) as [out ->].
Qed.

Lemma run_sound calls c : sound c → sound (snd (run calls c)).
Proof.
  revert c. induction calls as [|[ctx r] calls IH]; intros c H; [done|].
  rewrite run_cons. cbn [snd]. by apply IH, invoke_sound.
Qed.

(** X10: referential integrity of a contract that started empty.  After
    any sequence of calls, every individual, organization and certificate
    carries the key it is stored under as its [id]; and every stored
    certificate names as issuer an organization that is registered and
    verified, and as learner an individual that is registered. *)
Theorem stored_records_are_consistent calls :
  (∀ a i, individuals (snd (run calls constructor)) !! a = Some i →
          Individual.id i = a)
  ∧ (∀ a o, organizations (snd (run calls constructor)) !! a = Some o →
            Organization.id o = a)
  ∧ (∀ id cert, certificates (snd (run calls constructor)) !! id = Some cert →
       Certificate.id cert = id
       ∧ verified_in (snd (run calls constructor))
           (CertificateMetadata.issuer_org_id (Certificate.metadata cert))
       ∧ is_Some (individuals (snd (run calls constructor))
                    !! CertificateMetadata.learner_id (Certificate.metadata cert))).
Proof.
  destruct (run_sound calls constructor sound_constructor) as (Hi & Ho & Hc).
  split; [exact Hi|]. split; [exact Ho|].
  intros id cert Hcert. destruct (Hc id cert Hcert) as (Hid & Hv & Hl & _).
  by repeat split.
Qed.

Lemma stored_records_are_consistent_witness :
  ∃ cert,
    certificates (snd (run (Scenario.setup ++ [Scenario.issue]) constructor))
      !! "cert_1" = Some cert
    ∧ Certificate.id cert = "cert_1"
    ∧ verified_in (snd (run (Scenario.setup ++ [Scenario.issue]) constructor))
        (CertificateMetadata.issuer_org_id (Certificate.metadata cert))
    ∧ is_Some (individuals (snd (run (Scenario.setup ++ [Scenario.issue]) constructor))
                 !! CertificateMetadata.learner_id (Certificate.metadata cert)).
Proof.
  assert (∃ cert,
            certificates (snd (run (Scenario.setup ++ [Scenario.issue]) constructor))
              !! "cert_1" = Some cert)
    as [cert Hcert] by (eexists; vm_compute; reflexivity).
  exists cert. split; [exact Hcert|].
  exact (proj2 (proj2 (stored_records_are_consistent
                         (Scenario.setup ++ [Scenario.issue]))) _ _ Hcert).
Defined.

(** X11: the audit trail of a contract that started empty.  After any
    sequence of calls, [get_certificate_history] returns for a stored
    certificate a non-empty sequence whose first entry is the issuance and
    whose entries were all made by the certificate's issuer, and for an id
    under which no certificate is stored the empty sequence. *)
Theorem histories_are_by_the_issuer calls id ctx :
  (∀ cert, certificates (snd (run calls constructor)) !! id = Some cert →
     ∃ first rest,
       view ctx (get_certificate_history id) (snd (run calls constructor))
       = Normal (first :: rest)
       ∧ UpdateLog.action first = "issued"
       ∧ Forall (λ l, UpdateLog.by_account l
                      = CertificateMetadata.issuer_org_id (Certificate.metadata cert))
           (first :: rest))
  ∧ (certificates (snd (run calls constructor)) !! id = None →
     view ctx (get_certificate_history id) (snd (run calls constructor)) = Normal []).
Proof.
  split.
  - intros cert Hcert.
    destruct (run_sound calls constructor sound_constructor) as (_ & _ & Hc).
    destruct (Hc id cert Hcert) as (_ & _ & _ & first & rest & Hh & Ha & Hby).
    exists first, rest. by rewrite view_get_certificate_history, Hh.
  - intros Hnone.
    destruct (run_numbered calls constructor numbered_constructor) as [_ Hh].
    rewrite view_get_certificate_history.
    destruct (certificate_history _ !! id) as [h|] eqn:Hhist; [|done].
    destruct (proj1 (Hh id)) as [cert Hcert]; [by eexists|]. congruence.
Qed.

Lemma histories_are_by_the_issuer_witness :
  (∃ cert first rest,
     certificates (snd (run (Scenario.setup ++ Scenario.issue :: Scenario.mutations)
                          constructor)) !! "cert_1" = Some cert
     ∧ view (Scenario.ctx "bob" 0) (get_certificate_history "cert_1")
         (snd (run (Scenario.setup ++ Scenario.issue :: Scenario.mutations)
                 constructor))
       = Normal (first :: rest)
     ∧ length rest = 2
     ∧ Forall (λ l, UpdateLog.by_account l
                    = CertificateMetadata.issuer_org_id (Certificate.metadata cert))
         (first :: rest))
  ∧ certificates (snd (run (Scenario.setup ++ Scenario.issue :: Scenario.mutations)
                         constructor)) !! "cert_2" = None
  ∧ view (Scenario.ctx "bob" 0) (get_certificate_history "cert_2")
      (snd (run (Scenario.setup ++ Scenario.issue :: Scenario.mutations) constructor))
    = Normal [].
Proof.
  pose proof (histories_are_by_the_issuer
                (Scenario.setup ++ Scenario.issue :: Scenario.mutations)
                "cert_1" (Scenario.ctx "bob" 0)) as [Hstored _].
  pose proof (histories_are_by_the_issuer
                (Scenario.setup ++ Scenario.issue :: Scenario.mutations)
                "cert_2" (Scenario.ctx "bob" 0)) as [_ Habsent].
  assert (∃ cert,
            certificates (snd (run (Scenario.setup ++ Scenario.issue :: Scenario.mutations)
                                 constructor)) !! "cert_1" = Some cert)
    as [cert Hcert] by (eexists; vm_compute; reflexivity).
  assert (Hnone : certificates
                    (snd (run (Scenario.setup ++ Scenario.issue :: Scenario.mutations)
                            constructor)) !! "cert_2" = None)
    by (vm_compute; reflexivity).
  split; [|split; [exact Hnone|exact (Habsent Hnone)]].
  destruct (Hstored cert Hcert) as (first & rest & Hview & _ & Hby).
  exists cert, first, rest. split; [exact Hcert|]. split; [exact Hview|].
  split; [|exact Hby].
  assert (∃ h, view (Scenario.ctx "bob" 0) (get_certificate_history "cert_1")
                 (snd (run (Scenario.setup ++ Scenario.issue :: Scenario.mutations)
                         constructor)) = Normal h
               ∧ length h = 3)
    as (h & Hh & Hlen) by (eexists; split; vm_compute; reflexivity).
  rewrite Hview in Hh. injection Hh as <-. cbn in Hlen. by injection Hlen.
Defined.

(** ** Edge cases and compositions of single calls *)

(** X12: [update_certificate_status] and [revoke_certificate], called
    with no deposit attached on an id under which no certificate is stored,
    fail with NotFound, whoever calls (the existence check comes before the
    issuer check), and [get_certificate] returns null for it. *)
Theorem missing_certificate_not_found ctx c certificate_id :
  certificates c !! certificate_id = None →
  (near.deposit ctx = 0%N →
   (∀ new_status,
      fails_with NotFound (update_certificate_status certificate_id new_status) ctx c)
   ∧ (∀ reason,
        fails_with NotFound (revoke_certificate certificate_id reason) ctx c))
  ∧ get_certificate certificate_id ctx (start c) = (Normal None, start c).
Proof.
  intros Hnone. split; [intros Hd; split|].
  - intros new_status. exists (Error "Certificate not found"). split; [|done].
    unfold_body. no_deposit Hd. by rewrite Hnone.
  - intros reason. exists (Error "Certificate not found"). split; [|done].
    unfold_body. no_deposit Hd. by rewrite Hnone.
  - unfold_body. by rewrite Hnone.
Qed.

Lemma missing_certificate_not_found_witness :
  certificates Scenario.issued !! "cert_7" = None
  ∧ fails_with NotFound (update_certificate_status "cert_7" "completed")
      (Scenario.ctx "school" 0) Scenario.issued
  ∧ fails_with NotFound (revoke_certificate "cert_7" "fraud")
      (Scenario.ctx "school" 0) Scenario.issued.
Proof.
  assert (H : certificates Scenario.issued !! "cert_7" = None)
    by (vm_compute; reflexivity).
  pose proof (missing_certificate_not_found (Scenario.ctx "school" 0) _ _ H)
    as (Hcalls & _).
  destruct (Hcalls eq_refl) as (Hu & Hr).
  split; [exact H|]. split; [exact (Hu _)|exact (Hr _)].
Defined.

(** X13: a first [register_individual] by an account succeeds whatever else the account
    is (it may already be an organization), [get_individual] then returns
    the record with the caller as [id], the given name, date of birth and
    e-mail, and the first clock reading as [registered_at], and the records
    of all other accounts are untouched.  The call is made with no deposit
    attached. *)
Theorem register_individual_stores ctx name dob email c :
  near.deposit ctx = 0%N →
  individuals c !! near.predecessor ctx = None →
  ∃ c',
    invoke ctx (Register_individual name dob email) c = (Normal undefined, c')
    ∧ (∀ ctx', get_individual (near.predecessor ctx) ctx' (start c')
               = (Normal (Some {| Individual.id := near.predecessor ctx;
                                  Individual.name := name;
                                  Individual.dob := dob;
                                  Individual.email := email;
                                  Individual.registered_at := near.clock ctx 0 |}),
                  start c'))
    ∧ (∀ a, a ≠ near.predecessor ctx → individuals c' !! a = individuals c !! a).
Proof.
  intros Hd Hnone. rewrite (invoke_register_individual _ Hd), Hnone.
  eexists. split; [reflexivity|]. split.
  - intros ctx'. unfold_body. by rewrite lookup_insert_eq.
  - intros a Ha. simpl_contract. by rewrite lookup_insert_ne.
Qed.

Lemma register_individual_stores_witness :
  individuals Scenario.registered !! "school" = None
  ∧ is_Some (organizations Scenario.registered !! "school")
  ∧ ∃ c',
      invoke (Scenario.ctx "school" 0)
        (Register_individual "School" "2000-01-01" "school@example.com")
        Scenario.registered
      = (Normal undefined, c')
      ∧ Individual.name <$> individuals c' !! "school" = Some "School"
      ∧ individuals c' !! "alice" = individuals Scenario.registered !! "alice".
Proof.
  assert (H : individuals Scenario.registered !! "school" = None)
    by (vm_compute; reflexivity).
  split; [exact H|]. split; [vm_compute; eauto|].
  destruct (register_individual_stores (Scenario.ctx "school" 0)
              "School" "2000-01-01" "school@example.com" Scenario.registered
              eq_refl H)
    as (c' & Hinvoke & Hget & Hother).
  exists c'. split; [exact Hinvoke|]. split.
  - specialize (Hget (Scenario.ctx "school" 0)).
    unfold get_individual, individuals_get in Hget.
    injection Hget as Hget. cbn in Hget. by rewrite Hget.
  - apply Hother. discriminate.
Defined.

(** X14: the path of an organization to its first certificate, all calls
    made with no deposit attached.  A first [register_organization] stores
    the caller unverified, so its own [issue_certificate] fails with
    Unauthorized; after a [verify_organization] of it by any account, its
    [issue_certificate] for a registered learner succeeds and returns the
    next id. *)
Theorem new_organization_must_be_verified ctx name contact_info c :
  near.deposit ctx = 0%N →
  organizations c !! near.predecessor ctx = None →
  ∃ c1,
    invoke ctx (Register_organization name contact_info) c = (Normal undefined, c1)
    ∧ (∀ ctx', get_organization (near.predecessor ctx) ctx' (start c1)
               = (Normal (Some {| Organization.id := near.predecessor ctx;
                                  Organization.name := name;
                                  Organization.contact_info := contact_info;
                                  Organization.verified := false;
                                  Organization.registered_at := near.clock ctx 0 |}),
                  start c1))
    ∧ (∀ ctx' learner_id course_id metadata,
         near.deposit ctx' = 0%N →
         near.predecessor ctx' = near.predecessor ctx →
         fails_with Unauthorized (issue_certificate learner_id course_id metadata)
           ctx' c1)
    ∧ ∀ verifier,
        near.deposit verifier = 0%N →
        ∃ c2,
          invoke verifier (Verify_organization (near.predecessor ctx)) c1
          = (Normal undefined, c2)
          ∧ ∀ ctx' learner_id course_id metadata,
              near.deposit ctx' = 0%N →
              near.predecessor ctx' = near.predecessor ctx →
              is_Some (individuals c !! learner_id) →
              ∃ c3,
                invoke ctx' (Issue_certificate learner_id course_id metadata) c2
                = (Normal (str (cert_id (S (certificate_counter c)))), c3).
Proof.
  intros Hd Hnone. rewrite (invoke_register_organization _ Hd), Hnone.
  eexists. split; [reflexivity|]. split; [|split].
  - intros ctx'. unfold_body. by rewrite lookup_insert_eq.
  - intros ctx' learner_id course_id metadata Hd' Hcaller.
    exists (Error "Only verified organizations can issue certificates").
    split; [|done]. unfold_body. no_deposit Hd'.
    by rewrite Hcaller, lookup_insert_eq.
  - intros verifier Hdv. rewrite (invoke_verify_organization _ Hdv). simpl_contract.
    rewrite lookup_insert_eq. eexists. split; [reflexivity|].
    intros ctx' learner_id course_id metadata Hd' Hcaller [i Hi].
    rewrite (invoke_issue_certificate _ Hd'). simpl_contract.
    rewrite Hcaller, lookup_insert_eq, Hi. cbn. by eexists.
Qed.

Lemma new_organization_must_be_verified_witness :
  organizations Scenario.registered !! "academy" = None
  ∧ ∃ c1,
      invoke (Scenario.ctx "academy" 0) (Register_organization "Academy" "a@example.com")
        Scenario.registered = (Normal undefined, c1)
      ∧ fails_with Unauthorized (issue_certificate "alice" "course9" Scenario.payload)
          (Scenario.ctx "academy" 0) c1
      ∧ ∃ c2 c3,
          invoke (Scenario.ctx "bob" 0) (Verify_organization "academy") c1
          = (Normal undefined, c2)
          ∧ invoke (Scenario.ctx "academy" 0)
              (Issue_certificate "alice" "course9" Scenario.payload) c2
            = (Normal (str (cert_id (S (certificate_counter Scenario.registered)))), c3).
Proof.
  assert (H : organizations Scenario.registered !! "academy" = None)
    by (vm_compute; reflexivity).
  assert (Halice : is_Some (individuals Scenario.registered !! "alice"))
    by (vm_compute; eauto).
  split; [exact H|].
  destruct (new_organization_must_be_verified (Scenario.ctx "academy" 0)
              "Academy" "a@example.com" Scenario.registered eq_refl H)
    as (c1 & Hreg & _ & Hfail & Hverify).
  exists c1. split; [exact Hreg|].
  split; [exact (Hfail (Scenario.ctx "academy" 0) _ _ _ eq_refl eq_refl)|].
  destruct (Hverify (Scenario.ctx "bob" 0) eq_refl) as (c2 & Hv & Hissue).
  destruct (Hissue (Scenario.ctx "academy" 0) "alice" "course9" Scenario.payload
              eq_refl eq_refl Halice) as (c3 & Hc3).
  exists c2, c3. split; [exact Hv|exact Hc3].
Defined.

(** [validate_certificate] reads the certificates only. *)
Lemma validate_certificate_reads_certificates ctx c c' id :
  certificates c = certificates c' →
  view ctx (validate_certificate id) c = view ctx (validate_certificate id) c'.
Proof.
  intros H. unfold_body. rewrite H.
  destruct (certificates c' !! id) as [cert|]; [|done].
  by destruct (_ =? _).
Qed.

(** X15: [revoke_certificate] is [update_certificate_status] to
    ["revoked"] but for the line it appends to the history.  With the same
    caller, deposit and clock both complete or both fail; when they fail
    both leave the contract as it was; when they complete, the two
    resulting contracts have the same individuals, organizations,
    certificates, rewards and counters and the same history under every
    other id, so no later [validate_certificate] can tell them apart, and
    the histories of the certificate are the same sequence followed by one
    line each: these two lines have the same time and author, and differ
    in action and reason. *)
Theorem revoke_is_update_to_revoked ctx certificate_id reason c :
  let cr := snd (invoke ctx (Revoke_certificate certificate_id reason) c) in
  let cu := snd (invoke ctx (Update_certificate_status certificate_id "revoked") c) in
  (fst (invoke ctx (Revoke_certificate certificate_id reason) c) = Normal undefined
   ↔ fst (invoke ctx (Update_certificate_status certificate_id "revoked") c)
     = Normal undefined)
  ∧ (fst (invoke ctx (Revoke_certificate certificate_id reason) c) ≠ Normal undefined →
     cr = c ∧ cu = c)
  ∧ individuals cr = individuals cu
  ∧ organizations cr = organizations cu
  ∧ certificates cr = certificates cu
  ∧ rewards cr = rewards cu
  ∧ certificate_counter cr = certificate_counter cu
  ∧ reward_counter cr = reward_counter cu
  ∧ (∀ other, other ≠ certificate_id →
       certificate_history cr !! other = certificate_history cu !! other)
  ∧ (∀ id ctx', view ctx' (validate_certificate id) cr
                = view ctx' (validate_certificate id) cu)
  ∧ (fst (invoke ctx (Revoke_certificate certificate_id reason) c) = Normal undefined →
     certificate_history cr !! certificate_id
     = Some (or_empty (certificate_history c !! certificate_id)
             ++ [ {| UpdateLog.timestamp := near.clock ctx 1;
                     UpdateLog.action := "revoked";
                     UpdateLog.reason := reason;
                     UpdateLog.by_account := near.predecessor ctx |} ])
     ∧ certificate_history cu !! certificate_id
       = Some (or_empty (certificate_history c !! certificate_id)
               ++ [ {| UpdateLog.timestamp := near.clock ctx 1;
                       UpdateLog.action := "status_updated";
                       UpdateLog.reason := "Status changed to revoked";
                       UpdateLog.by_account := near.predecessor ctx |} ])).
Proof.
  cbn zeta. destruct (decide (near.deposit ctx = 0%N)) as [Hd|Hd].
  - rewrite (invoke_revoke_certificate _ Hd), (invoke_update_certificate_status _ Hd).
    destruct (certificates c !! certificate_id) as [cert|];
      [|cbn [fst snd]; by repeat split].
    destruct (_ =? _); [|cbn [fst snd]; by repeat split]. simpl_contract.
    split; [done|]. split; [done|]. do 6 (split; [done|]). split; [|split].
    + intros other Hother. by rewrite !lookup_insert_ne.
    + intros id ctx'. by apply validate_certificate_reads_certificates.
    + intros _. rewrite !lookup_insert_eq. by split.
  - rewrite !invoke_not_payable by done. cbn [fst snd]. by repeat split.
Qed.

Lemma revoke_is_update_to_revoked_witness :
  fst (invoke (Scenario.ctx "school" 0) (Revoke_certificate "cert_1" "fraud")
         Scenario.issued) = Normal undefined
  ∧ certificate_history
      (snd (invoke (Scenario.ctx "school" 0) (Revoke_certificate "cert_1" "fraud")
              Scenario.issued)) !! "cert_1"
    = Some (or_empty (certificate_history Scenario.issued !! "cert_1")
            ++ [ {| UpdateLog.timestamp := near.clock (Scenario.ctx "school" 0) 1;
                    UpdateLog.action := "revoked";
                    UpdateLog.reason := "fraud";
                    UpdateLog.by_account := "school" |} ]).
Proof.
  assert (H : fst (invoke (Scenario.ctx "school" 0) (Revoke_certificate "cert_1" "fraud")
                     Scenario.issued) = Normal undefined)
    by (vm_compute; reflexivity).
  split; [exact H|].
  pose proof (revoke_is_update_to_revoked (Scenario.ctx "school" 0)
                "cert_1" "fraud" Scenario.issued)
    as (_ & _ & _ & _ & _ & _ & _ & _ & _ & _ & Hlines).
  exact (proj1 (Hlines H)).
Defined.

(** X16: [verify_organization] is idempotent: once a verification of an
    organization has completed, a second verification of it, by whatever
    caller, with whatever deposit and at whatever time, leaves the contract
    exactly as the first left it. *)
Theorem verify_organization_idempotent ctx1 ctx2 organization_id c :
  fst (invoke ctx1 (Verify_organization organization_id) c) = Normal undefined →
  snd (invoke ctx2 (Verify_organization organization_id)
         (snd (invoke ctx1 (Verify_organization organization_id) c)))
  = snd (invoke ctx1 (Verify_organization organization_id) c).
Proof.
  by_decorator ctx1 (Verify_organization organization_id) c; [done|].
  rewrite (invoke_verify_organization ctx1 Hd).
  destruct (organizations c !! organization_id) as [o|] eqn:Ho; [|done].
  intros _. cbn [snd].
  match goal with
  | |- snd (invoke ctx2 ?r ?c1) = _ =>
      destruct (invoke_guard ctx2 r c1) as [(_ & _ & ->)|Hd2]; [done|]
  end.
  cbn [accepted] in Hd2. rewrite (invoke_verify_organization _ Hd2). simpl_contract.
  rewrite lookup_insert_eq. simpl_contract. by rewrite insert_insert_eq.
Qed.

Lemma verify_organization_idempotent_witness :
  fst (invoke (Scenario.ctx "bob" 0) (Verify_organization "school") Scenario.registered)
  = Normal undefined
  ∧ snd (invoke (Scenario.ctx "alice" 0) (Verify_organization "school")
           (snd (invoke (Scenario.ctx "bob" 0) (Verify_organization "school")
                   Scenario.registered)))
    = snd (invoke (Scenario.ctx "bob" 0) (Verify_organization "school")
             Scenario.registered).
Proof.
  assert (H : fst (invoke (Scenario.ctx "bob" 0) (Verify_organization "school")
                     Scenario.registered) = Normal undefined)
    by (vm_compute; reflexivity).
  split; [exact H|].
  exact (verify_organization_idempotent (Scenario.ctx "bob" 0) (Scenario.ctx "alice" 0)
           "school" Scenario.registered H).
Defined.

(** X17: a certificate can be validated and fetched as soon as it is
    issued: after a successful [issue_certificate], [validate_certificate]
    on the returned id returns the bound metadata and [get_certificate] the
    stored certificate, pending, with the first two clock readings as
    [issued_at] and [updated_at]. *)
Theorem issued_certificate_validates ctx learner_id course_id metadata c id c1 :
  invoke ctx (Issue_certificate learner_id course_id metadata) c
  = (Normal (str id), c1) →
  ∀ ctx',
    validate_certificate id ctx' (start c1)
    = (Normal (Some {| CertificateMetadata.learner_id := learner_id;
                       CertificateMetadata.course_id := course_id;
                       CertificateMetadata.course_name :=
                         CertificateMetadata.course_name metadata;
                       CertificateMetadata.completion_date :=
                         CertificateMetadata.completion_date metadata;
                       CertificateMetadata.issuer_org_id := near.predecessor ctx;
                       CertificateMetadata.skills :=
                         CertificateMetadata.skills metadata;
                       CertificateMetadata.grade :=
                         CertificateMetadata.grade metadata |}),
       start c1)
    ∧ ∃ cert,
        get_certificate id ctx' (start c1) = (Normal (Some cert), start c1)
        ∧ Certificate.id cert = id
        ∧ Certificate.status cert = "pending"
        ∧ Certificate.issued_at cert = near.clock ctx 0
        ∧ Certificate.updated_at cert = near.clock ctx 1.
Proof.
  by_decorator ctx (Issue_certificate learner_id course_id metadata) c; [done|].
  rewrite (invoke_issue_certificate _ Hd). destruct (not_verified _); [done|].
  destruct (individuals c !! learner_id); [|done].
  intros [= <- <-] ctx'. split.
  - unfold_body. by rewrite lookup_insert_eq.
  - eexists. split; [unfold_body; by rewrite lookup_insert_eq|done].
Qed.

Lemma issued_certificate_validates_witness :
  ∃ c1 cert,
    invoke (Scenario.ctx "school" 0)
      (Issue_certificate "alice" "course1" Scenario.payload) Scenario.registered
    = (Normal (str "cert_1"), c1)
    ∧ get_certificate "cert_1" (Scenario.ctx "bob" 0) (start c1)
      = (Normal (Some cert), start c1)
    ∧ Certificate.status cert = "pending".
Proof.
  assert (∃ c1, invoke (Scenario.ctx "school" 0)
                  (Issue_certificate "alice" "course1" Scenario.payload)
                  Scenario.registered = (Normal (str "cert_1"), c1))
    as [c1 H] by (eexists; vm_compute; reflexivity).
  destruct (issued_certificate_validates _ _ _ _ _ _ _ H (Scenario.ctx "bob" 0))
    as (_ & cert & Hget & _ & Hstatus & _).
  exists c1, cert. split; [exact H|]. split; [exact Hget|exact Hstatus].
Defined.

(** The loop of [list_rewards] from index [i] for [remaining] iterations
    appends the matching rewards found under [reward_<i>], ...,
    [reward_<i + remaining - 1>]. *)
Lemma list_rewards_loop_scan learner_id ctx c remaining :
  ∀ i acc,
    list_rewards_loop learner_id remaining i acc ctx (start c)
    = (Normal (acc ++ List.filter (granted_to learner_id)
                        (omap (λ k, rewards c !! reward_id k) (seq i remaining))),
       start c).
Proof.
  induction remaining as [|remaining IH]; intros i acc.
  - cbn. by rewrite app_nil_r.
  - change (list_rewards_loop learner_id (S remaining) i acc ctx (start c))
      with (list_rewards_loop learner_id remaining (S i)
              match rewards c !! reward_id i with
              | Some r => if Reward.learner_id r =? learner_id then acc ++ [r] else acc
              | None => acc
              end ctx (start c)).
    rewrite IH. cbn [seq omap list_omap].
    destruct (rewards c !! reward_id i) as [r|]; [|done].
    cbn [List.filter]. unfold granted_to at 2.
    destruct (Reward.learner_id r =? learner_id); [|done].
    by rewrite <- app_assoc.
Qed.

Lemma omap_length_le {A B} (f : A → option B) (l : list A) :
  (length (omap f l) ≤ length l)%nat.
Proof.
  induction l as [|x l IH]; [done|]. cbn [omap list_omap].
  destruct (f x); cbn [length]; lia.
Qed.

(** X18: [list_rewards] on any contract, reachable or not: it returns, in
    key order, the rewards stored under [reward_1], ..., [reward_<counter>]
    whose learner is the one asked for, skipping the keys that hold
    nothing; so every reward returned belongs to that learner, at most
    [counter] rewards are returned, and rewards stored under any other key
    are never seen. *)
Theorem list_rewards_scans_the_counter ctx c learner_id :
  ∃ result,
    list_rewards learner_id ctx (start c) = (Normal result, start c)
    ∧ result = List.filter (granted_to learner_id) (stored_rewards c)
    ∧ Forall (λ r, Reward.learner_id r = learner_id) result
    ∧ (length result ≤ reward_counter c)%nat.
Proof.
  eexists. split; [|split; [reflexivity|split]].
  - change (list_rewards learner_id ctx (start c))
      with (list_rewards_loop learner_id (reward_counter c) 1 [] ctx (start c)).
    by rewrite list_rewards_loop_scan.
  - apply Forall_forall. intros r Hr%list_elem_of_In%filter_In.
    destruct Hr as [_ Hr]. by apply String.eqb_eq.
  - etrans; [apply filter_length_le|]. unfold stored_rewards.
    etrans; [apply omap_length_le|]. by rewrite length_seq.
Qed.

(** X19: an amount that is not an integer literal makes [process_payment]
    throw a SyntaxError before it compares the deposit or looks up the
    recipient, whatever both are; it is none of the contract's own
    failures, and nothing is written or transferred. *)
Theorem process_payment_rejects_non_numbers ctx recipient_id amount c :
  StringToBigInt amount = None →
  ∃ msg,
    process_payment recipient_id amount ctx (start c)
    = (Throw (SyntaxError msg), start c)
    ∧ kind_of (SyntaxError msg) = None.
Proof.
  intros Ha. eexists. split; [|reflexivity]. unfold_body. by rewrite Ha.
Qed.

Lemma process_payment_rejects_non_numbers_witness :
  StringToBigInt "ten" = None
  ∧ ∃ msg,
      process_payment "alice" "ten" (Scenario.ctx "bob" 100) (start Scenario.registered)
      = (Throw (SyntaxError msg), start Scenario.registered).
Proof.
  assert (H : StringToBigInt "ten" = None) by reflexivity.
  split; [exact H|].
  destruct (process_payment_rejects_non_numbers (Scenario.ctx "bob" 100) "alice" "ten"
              Scenario.registered H) as (msg & Hmsg & _).
  exists msg. exact Hmsg.
Defined.

(** X20: [update_certificate_status] and [revoke_certificate] touch one
    certificate: whatever their outcome, every certificate and every
    history stored under another id is left exactly as it was. *)
Theorem mutations_touch_one_certificate ctx certificate_id c other :
  other ≠ certificate_id →
  (∀ new_status,
     certificates
       (snd (invoke ctx (Update_certificate_status certificate_id new_status) c))
       !! other = certificates c !! other
     ∧ certificate_history
         (snd (invoke ctx (Update_certificate_status certificate_id new_status) c))
         !! other = certificate_history c !! other)
  ∧ (∀ reason,
       certificates (snd (invoke ctx (Revoke_certificate certificate_id reason) c))
         !! other = certificates c !! other
       ∧ certificate_history
           (snd (invoke ctx (Revoke_certificate certificate_id reason) c))
           !! other = certificate_history c !! other).
Proof.
  intros Hne. destruct (decide (near.deposit ctx = 0%N)) as [Hd|Hd];
    [|split; intros; by rewrite invoke_not_payable].
  split.
  - intros new_status. rewrite (invoke_update_certificate_status _ Hd).
    destruct (certificates c !! certificate_id); [|done].
    destruct (_ =? _); [|done]. simpl_contract.
    by rewrite !lookup_insert_ne.
  - intros reason. rewrite (invoke_revoke_certificate _ Hd).
    destruct (certificates c !! certificate_id); [|done].
    destruct (_ =? _); [|done]. simpl_contract.
    by rewrite !lookup_insert_ne.
Qed.

Lemma mutations_touch_one_certificate_witness :
  "cert_1" ≠ "cert_2"
  ∧ certificates
      (snd (invoke (Scenario.ctx "school" 0) (Revoke_certificate "cert_2" "fraud")
              Scenario.issued)) !! "cert_1"
    = certificates Scenario.issued !! "cert_1".
Proof.
  assert (H : "cert_1" ≠ "cert_2") by discriminate.
  split; [exact H|].
  exact (proj1 (proj2 (mutations_touch_one_certificate (Scenario.ctx "school" 0)
                         "cert_2" Scenario.issued "cert_1" H) "fraud")).
Defined.

(** X21: rewards are not deduplicated: granting the same milestone to the
    same learner twice, with no deposit attached, succeeds twice, returns
    two consecutive ids, and stores two rewards that differ in id and grant
    time only. *)
Theorem grant_reward_allows_repeats ctx1 ctx2 learner_id milestone c :
  near.deposit ctx1 = 0%N →
  near.deposit ctx2 = 0%N →
  is_Some (individuals c !! learner_id) →
  ∃ c1 c2,
    invoke ctx1 (Grant_reward learner_id milestone) c
    = (Normal (str (reward_id (S (reward_counter c)))), c1)
    ∧ invoke ctx2 (Grant_reward learner_id milestone) c1
      = (Normal (str (reward_id (S (S (reward_counter c))))), c2)
    ∧ rewards c2 !! reward_id (S (reward_counter c))
      = Some {| Reward.id := reward_id (S (reward_counter c));
                Reward.learner_id := learner_id; Reward.milestone := milestone;
                Reward.amount := "100"; Reward.granted_at := near.clock ctx1 0 |}
    ∧ rewards c2 !! reward_id (S (S (reward_counter c)))
      = Some {| Reward.id := reward_id (S (S (reward_counter c)));
                Reward.learner_id := learner_id; Reward.milestone := milestone;
                Reward.amount := "100"; Reward.granted_at := near.clock ctx2 0 |}
    ∧ reward_counter c2 = S (S (reward_counter c)).
Proof.
  intros Hd1 Hd2 [i Hi]. rewrite (invoke_grant_reward _ Hd1), Hi.
  eexists. eexists. split; [reflexivity|].
  rewrite (invoke_grant_reward _ Hd2). simpl_contract. rewrite Hi.
  split; [reflexivity|]. simpl_contract. split; [|split; [|done]].
  - rewrite lookup_insert_ne; [by rewrite lookup_insert_eq|].
    intros ?%reward_id_inj. lia.
  - by rewrite lookup_insert_eq.
Qed.

Lemma grant_reward_allows_repeats_witness :
  is_Some (individuals Scenario.registered !! "alice")
  ∧ ∃ c1 c2,
      invoke (Scenario.ctx "bob" 0) (Grant_reward "alice" "first course")
        Scenario.registered
      = (Normal (str (reward_id (S (reward_counter Scenario.registered)))), c1)
      ∧ invoke (Scenario.ctx "bob" 0) (Grant_reward "alice" "first course") c1
        = (Normal (str (reward_id (S (S (reward_counter Scenario.registered))))), c2)
      ∧ reward_counter c2 = S (S (reward_counter Scenario.registered)).
Proof.
  assert (H : is_Some (individuals Scenario.registered !! "alice"))
    by (vm_compute; eauto).
  split; [exact H|].
  destruct (grant_reward_allows_repeats (Scenario.ctx "bob" 0) (Scenario.ctx "bob" 0)
              "alice" "first course" Scenario.registered eq_refl eq_refl H)
    as (c1 & c2 & H1 & H2 & _ & _ & Hn).
  exists c1, c2. split; [exact H1|]. split; [exact H2|exact Hn].
Defined.
